(** * almdrlib.session: the authenticated [Session]

    A shallow embedding of [almdrlib/session.py].  The Python object is a
    record of attributes, the methods are computations in a state and
    exception monad over a [World] (the object, the dictionaries reachable
    from the caller, and the history of what happened), and the HTTP
    transport is a parameter answering each call. *)

From stdpp Require Import base gmap strings list.
From Stdlib Require Import ZArith Lia.

(** ** Python values

    The values that reach the session: [None], strings, and whatever
    [response.json()] can deliver. *)

#[warnings="-register-all"]
Inductive pyval : Type :=
  | PNone
  | PBool (b : bool)
  | PInt (n : Z)
  | PFloat (literal : string)
  | PStr (s : string)
  | PList (items : list pyval)
  | PDict (entries : list (string * pyval)).

(** [v is None] *)
Definition is_None (v : pyval) : bool :=
  match v with PNone => true | _ => false end.

(** Truth value of an optional string argument ([None] and [""] are falsy). *)
Definition truthy (a : option string) : bool :=
  match a with
  | None => false
  | Some s => negb (String.eqb s "")
  end.

(** A caller-supplied optional string as a Python value. *)
Definition of_arg (a : option string) : pyval :=
  match a with None => PNone | Some s => PStr s end.

(** An instance attribute: Python raises [AttributeError] on reading an
    attribute that no assignment has created yet. *)
Inductive attr : Type :=
  | Undefined
  | Bound (v : pyval).

(** A plain [dict] with string keys. *)
Abbreviation dict := (gmap string pyval).

(** ** HTTP objects *)

(** [requests.Response]: the status code and the outcome of [.json()]
    ([None] when the body is not a JSON document). *)
Record Response : Type := mkResponse {
  status_code : Z;
  json_body : option pyval
}.

(** What [requests.Session.request] receives: its arguments together with
    the [auth] pair stored on the transport session at that moment. *)
Record HttpCall : Type := mkHttpCall {
  hc_method : string;
  hc_url : string;
  hc_auth : option (pyval * pyval);
  hc_params : dict;
  hc_headers : dict;
  hc_cookies : dict;
  hc_kwargs : list (string * pyval)
}.

(** The outbound request handed to an auth callback; header names are kept
    in the lower-case spelling the callback itself uses. *)
Record PreparedRequest : Type := mkPreparedRequest {
  pr_method : string;
  pr_url : string;
  pr_headers : dict;
  pr_body : option string
}.

Inductive http_result : Type :=
  | Responded (r : Response)
  | TransportFailed (msg : string).

(** ** Exceptions *)

Inductive exn : Type :=
  | AuthenticationException (message : string)
  | HTTPError (r : Response)
  | AttributeError (name : string)
  | KeyError (key : string)
  | TypeError
  | JSONDecodeError
  | ConnectionError (msg : string).

Definition is_HTTPError (e : exn) : bool :=
  match e with HTTPError _ => true | _ => false end.

(** [except (KeyError, TypeError, ValueError)]; [JSONDecodeError] is a
    [ValueError]. *)
Definition is_lookup_error (e : exn) : bool :=
  match e with
  | KeyError _ | TypeError | JSONDecodeError => true
  | _ => false
  end.

Definition is_AuthenticationException (e : exn) : bool :=
  match e with AuthenticationException _ => true | _ => false end.

(** ** Subscripting a decoded JSON value with a string key

    The entries of a [PDict] are those of a Python dict, one per key, so
    the first entry found for a key is the entry. *)

Fixpoint dict_get (entries : list (string * pyval)) (k : string) : option pyval :=
  match entries with
  | [] => None
  | (k', v) :: rest => if String.eqb k' k then Some v else dict_get rest k
  end.

(** [v[k]] for a string [k]: only a dict can answer, a missing key is a
    [KeyError], every other value refuses a string index with a
    [TypeError]. *)
Definition getitem (v : pyval) (k : string) : exn + pyval :=
  match v with
  | PDict entries =>
      match dict_get entries k with
      | Some x => inr x
      | None => inl (KeyError k)
      end
  | _ => inl TypeError
  end.

Fixpoint getpath (v : pyval) (ks : list string) : exn + pyval :=
  match ks with
  | [] => inr v
  | k :: rest =>
      match getitem v k with
      | inl e => inl e
      | inr x => getpath x rest
      end
  end.

(** ** The session object and the world around it *)

(** [almdrlib.config.Config] as the session uses it: three attributes and
    [get_auth()]. *)
Module Config.
Record t : Type := mk {
  account_id : pyval;
  residency : string;
  global_endpoint : string;
  get_auth : pyval * pyval
}.
End Config.

Record Session : Type := mkSession {
  _config : Config.t;
  _token : pyval;
  _defaults : pyval;
  _account_id : pyval;
  _residency : string;
  _global_endpoint : string;
  _global_endpoint_url : string;
  _raise_for_status : bool;
  _session_auth : option (pyval * pyval);   (* self._session.auth *)
  _access_key_id : attr;
  _secret_key : attr;
  _account_name : attr
}.

(** History: entries into [_authenticate] and calls made on the transport. *)
Inductive event : Type :=
  | EvAuthenticate
  | EvHttp (c : HttpCall).

Definition is_EvAuthenticate (e : event) : bool :=
  match e with EvAuthenticate => true | _ => false end.

Definition loc := N.

Record World : Type := mkWorld {
  self : Session;
  heap : gmap N dict;
  trace : list event
}.

(** The three [{}] default arguments of [request], created once when the
    method is defined. *)
Definition request_default_params : loc := 0%N.
Definition request_default_headers : loc := 1%N.
Definition request_default_cookies : loc := 2%N.

Definition deref (h : gmap N dict) (l : loc) : dict := default ∅ (h !! l).

(** ** The monad: state that survives a raised exception *)

Definition M (A : Type) : Type := World -> (exn + A) * World.

Definition ret {A} (a : A) : M A := fun w => (inr a, w).

Definition raise {A} (e : exn) : M A := fun w => (inl e, w).

Definition bind {A B} (m : M A) (k : A -> M B) : M B :=
  fun w =>
    match m w with
    | (inl e, w') => (inl e, w')
    | (inr a, w') => k a w'
    end.

(** [try: m except <catches> as e: handler e] *)
Definition try_except {A} (m : M A) (catches : exn -> bool) (handler : exn -> M A) : M A :=
  fun w =>
    match m w with
    | (inl e, w') => if catches e then handler e w' else (inl e, w')
    | (inr a, w') => (inr a, w')
    end.

Definition lift {A} (r : exn + A) : M A := fun w => (r, w).

Declare Scope py_scope.
Delimit Scope py_scope with py.
Notation "x <-- m ;; k" := (bind m (fun x => k))
  (at level 100, m at next level, right associativity) : py_scope.
Notation "m ;;; k" := (bind m (fun _ => k))
  (at level 100, right associativity) : py_scope.
Local Open Scope py_scope.

Definition get_self : M Session := fun w => (inr (self w), w).

Definition log (e : event) : M unit :=
  fun w => (inr tt, mkWorld (self w) (heap w) (trace w ++ [e])).

Definition getattr (name : string) (a : attr) : M pyval :=
  match a with
  | Undefined => raise (AttributeError name)
  | Bound v => ret v
  end.

(** Attribute assignments. *)
Definition set_token (v : pyval) (s : Session) : Session :=
  mkSession (_config s) v (_defaults s) (_account_id s) (_residency s)
    (_global_endpoint s) (_global_endpoint_url s) (_raise_for_status s)
    (_session_auth s) (_access_key_id s) (_secret_key s) (_account_name s).

Definition set_account_id (v : pyval) (s : Session) : Session :=
  mkSession (_config s) (_token s) (_defaults s) v (_residency s)
    (_global_endpoint s) (_global_endpoint_url s) (_raise_for_status s)
    (_session_auth s) (_access_key_id s) (_secret_key s) (_account_name s).

Definition set_account_name (v : pyval) (s : Session) : Session :=
  mkSession (_config s) (_token s) (_defaults s) (_account_id s) (_residency s)
    (_global_endpoint s) (_global_endpoint_url s) (_raise_for_status s)
    (_session_auth s) (_access_key_id s) (_secret_key s) (Bound v).

Definition set_session_auth (a : pyval * pyval) (s : Session) : Session :=
  mkSession (_config s) (_token s) (_defaults s) (_account_id s) (_residency s)
    (_global_endpoint s) (_global_endpoint_url s) (_raise_for_status s)
    (Some a) (_access_key_id s) (_secret_key s) (_account_name s).

Definition set_keys (k sk : pyval) (s : Session) : Session :=
  mkSession (_config s) (_token s) (_defaults s) (_account_id s) (_residency s)
    (_global_endpoint s) (_global_endpoint_url s) (_raise_for_status s)
    (_session_auth s) (Bound k) (Bound sk) (_account_name s).

Definition modify_self (f : Session -> Session) : M unit :=
  fun w => (inr tt, mkWorld (f (self w)) (heap w) (trace w)).

(** [requests.Response.raise_for_status] (the transport library): an
    [HTTPError] for the client-error and server-error classes, 400 to 599,
    and nothing for any other status. *)
Definition is_error_status (status : Z) : bool :=
  ((400 <=? status) && (status <? 600))%Z.

Definition raise_for_status (r : Response) : M unit :=
  if is_error_status (status_code r) then raise (HTTPError r) else ret tt.

(** [response.json()] *)
Definition response_json (r : Response) : M pyval :=
  match json_body r with
  | Some j => ret j
  | None => raise JSONDecodeError
  end.

(** ** Measuring a history *)

Definition is_EvHttp (e : event) : bool :=
  match e with EvHttp _ => true | _ => false end.

Fixpoint count_events (p : event -> bool) (evs : list event) : nat :=
  match evs with
  | [] => 0
  | e :: rest => (if p e then 1 else 0) + count_events p rest
  end.

(** What a history gained is small: at most [a] entries into
    [_authenticate] and [n] calls. *)
Definition gained (w w' : World) (a n : nat) : Prop :=
  exists evs,
    trace w' = trace w ++ evs
    /\ count_events is_EvAuthenticate evs <= a
    /\ count_events is_EvHttp evs <= n.

(** The attributes that only [__init__] assigns. *)
Definition same_settings (s s' : Session) : Prop :=
  _config s' = _config s
  /\ _defaults s' = _defaults s
  /\ _residency s' = _residency s
  /\ _global_endpoint s' = _global_endpoint s
  /\ _global_endpoint_url s' = _global_endpoint_url s
  /\ _raise_for_status s' = _raise_for_status s.

(** ** The methods of [Session] *)

Section Methods.

(** Collaborators that live outside [session.py]. *)

(** [Config(access_key_id=, secret_key=, account_id=, profile=,
    global_endpoint=, residency=)] *)
Variable Config_new :
  option string -> option string -> option string -> option string ->
  option string -> string -> Config.t.

(** [Region.get_global_endpoint] and [Region.get_endpoint_url]. *)
Variable Region_get_global_endpoint : string -> string.
Variable Region_get_endpoint_url : string -> string -> pyval -> string -> string.

(** The network: the answer to a call, which may depend on everything
    that happened before it. *)
Variable transport : list event -> HttpCall -> http_result.

(** [str()] of an [HTTPError] and of a value that is not a string. *)
Variable str_HTTPError : Response -> string.
Variable py_str : pyval -> string.

(** [Session.__init__]; the world it starts in has the heap the caller
    already built and an empty history. *)
Definition __init__
    (access_key_id secret_key aims_token account_id profile
       global_endpoint : option string)
    (residency : string) (raise_for_status : bool) : Session :=
  let config :=
    Config_new access_key_id secret_key account_id profile
      global_endpoint residency in
  let s :=
    {| _config := config;
       _token := PNone;
       _defaults := PNone;
       _account_id := Config.account_id config;
       _residency := Config.residency config;
       _global_endpoint := Config.global_endpoint config;
       _global_endpoint_url :=
         Region_get_global_endpoint (Config.global_endpoint config);
       _raise_for_status := raise_for_status;
       _session_auth := None;
       _access_key_id := Undefined;
       _secret_key := Undefined;
       _account_name := Undefined |} in
  if truthy aims_token then set_token (of_arg aims_token) s
  else
    let '(k, sk) := Config.get_auth config in
    set_keys k sk s.

Definition new_world (s : Session) (h : gmap N dict) : World :=
  mkWorld s h [].

(** [Session._set_credentials] *)
Definition _set_credentials (access_key_id secret_key aims_token : pyval) : M unit :=
  modify_self (set_keys access_key_id secret_key) ;;;
  modify_self (set_token aims_token).

(** [self._session.request(...)]: the call carries the [auth] stored on
    the transport session, is answered by the network and is recorded. *)
Definition session_request
    (method url : string) (params headers cookies : dict)
    (kwargs : list (string * pyval)) : M Response :=
  fun w =>
    let c := mkHttpCall method url (_session_auth (self w))
               params headers cookies kwargs in
    let w' := mkWorld (self w) (heap w) (trace w ++ [EvHttp c]) in
    match transport (trace w) c with
    | Responded r => (inr r, w')
    | TransportFailed msg => (inl (ConnectionError msg), w')
    end.

Definition session_post (url : string) : M Response :=
  session_request "POST" url ∅ ∅ ∅ [].

Definition session_get (url : string) : M Response :=
  session_request "GET" url ∅ ∅ ∅ [].

(** The call [_authenticate] makes with the key pair [(k, sk)]. *)
Definition authenticate_call (s : Session) (k sk : pyval) : HttpCall :=
  mkHttpCall "POST" (_global_endpoint_url s +:+ "/aims/v1/authenticate")
    (Some (k, sk)) ∅ ∅ ∅ [].

(** [Session._authenticate] *)
Definition _authenticate : M unit :=
  log EvAuthenticate ;;;
  s <-- get_self ;;
  (* the log line formats self._access_key_id *)
  _ <-- getattr "_access_key_id" (_access_key_id s) ;;
  response <--
    try_except
      (k <-- getattr "_access_key_id" (_access_key_id s) ;;
       sk <-- getattr "_secret_key" (_secret_key s) ;;
       modify_self (set_session_auth (k, sk)) ;;;
       response <-- session_post (_global_endpoint_url s +:+ "/aims/v1/authenticate") ;;
       raise_for_status response ;;;
       ret response)
      is_HTTPError
      (fun e =>
         match e with
         | HTTPError r =>
             raise (AuthenticationException
                      ("invalid http response " +:+ str_HTTPError r))
         | _ => raise e
         end) ;;
  auth_info <-- response_json response ;;
  try_except
    (token <-- lift (getpath auth_info ["authentication"; "token"]) ;;
     modify_self (set_token token))
    is_lookup_error
    (fun _ => raise (AuthenticationException "token not found in response")) ;;;
  s <-- get_self ;;
  (if is_None (_account_id s) then
     try_except
       (id <-- lift (getpath auth_info ["authentication"; "account"; "id"]) ;;
        modify_self (set_account_id id))
       is_lookup_error
       (fun _ => raise (AuthenticationException "account id not found in response"))
   else ret tt) ;;;
  try_except
    (name <-- lift (getpath auth_info ["authentication"; "account"; "name"]) ;;
     modify_self (set_account_name name))
    is_lookup_error
    (fun _ => raise (AuthenticationException "account name not found in response")).

(** The properties. *)
Definition account_id : M pyval :=
  s <-- get_self ;;
  (if is_None (_account_id s) then _authenticate else ret tt) ;;;
  s <-- get_self ;;
  ret (_account_id s).

Definition residency : M string :=
  s <-- get_self ;; ret (_residency s).

Definition account_name : M pyval :=
  s <-- get_self ;; getattr "_account_name" (_account_name s).

Definition global_endpoint : M string :=
  s <-- get_self ;; ret (_global_endpoint s).

Definition global_endpoint_url : M string :=
  s <-- get_self ;; ret (_global_endpoint_url s).

Definition token : M pyval :=
  s <-- get_self ;; ret (_token s).

(** [Session.__call__]: the auth callback of the transport library. *)
Definition __call__ (r : PreparedRequest) : M PreparedRequest :=
  s <-- get_self ;;
  (if is_None (_token s) then _authenticate else ret tt) ;;;
  s <-- get_self ;;
  ret (mkPreparedRequest (pr_method r) (pr_url r)
         (<["x-aims-auth-token" := _token s]> (pr_headers r))
         (pr_body r)).

(** ["https://{}".format(v)] *)
Definition format_https (v : pyval) : string :=
  "https://" +:+ match v with PStr s => s | _ => py_str v end.

(** [account_id or self.account_id] *)
Definition account_or_own (account_id_arg : option string) : M pyval :=
  if truthy account_id_arg then ret (of_arg account_id_arg) else account_id.

(** The call [get_url] makes for the account [acct]. *)
Definition directory_call (s : Session) (service_name : string) (acct : pyval) : HttpCall :=
  mkHttpCall "GET"
    (Region_get_endpoint_url (_global_endpoint_url s) service_name acct (_residency s))
    (_session_auth s) ∅ ∅ ∅ [].

(** [Session.get_url] *)
Definition get_url (service_name : string) (account_id_arg : option string) : M string :=
  response <--
    try_except
      (s <-- get_self ;;
       acct <-- account_or_own account_id_arg ;;
       res <-- residency ;;
       response <--
         session_get
           (Region_get_endpoint_url (_global_endpoint_url s) service_name acct res) ;;
       raise_for_status response ;;;
       ret response)
      is_HTTPError
      (fun e =>
         match e with
         | HTTPError r =>
             raise (AuthenticationException
                      ("invalid http response from endpoints service "
                         +:+ str_HTTPError r))
         | _ => raise e
         end) ;;
  body <-- response_json response ;;
  host <-- lift (getitem body service_name) ;;
  ret (format_https host).

(** [headers.update({'x-aims-auth-token': ...})] on the dict object at [l]. *)
Definition dict_update (l : loc) (k : string) (v : pyval) : M unit :=
  fun w => (inr tt, mkWorld (self w) (<[l := <[k := v]> (deref (heap w) l)]> (heap w)) (trace w)).

Definition get_heap : M (gmap N dict) := fun w => (inr (heap w), w).

(** [Session.request]; an omitted dict argument is the default object of
    the method. *)
Definition request
    (method url : string) (params headers cookies : option loc)
    (kwargs : list (string * pyval)) : M Response :=
  let params := default request_default_params params in
  let headers := default request_default_headers headers in
  let cookies := default request_default_cookies cookies in
  s <-- get_self ;;
  dict_update headers "x-aims-auth-token" (_token s) ;;;
  h <-- get_heap ;;
  response <--
    session_request method url (deref h params) (deref h headers)
      (deref h cookies) kwargs ;;
  (if _raise_for_status s then raise_for_status response else ret tt) ;;;
  ret response.

(** The call [request] hands to the transport: the dictionaries are read
    after the token went into the headers object. *)
Definition request_call
    (w : World) (method url : string) (params headers cookies : option loc)
    (kwargs : list (string * pyval)) : HttpCall :=
  let hl := default request_default_headers headers in
  let h := <[hl := <["x-aims-auth-token" := _token (self w)]> (deref (heap w) hl)]> (heap w) in
  mkHttpCall method url (_session_auth (self w))
    (deref h (default request_default_params params))
    (deref h hl)
    (deref h (default request_default_cookies cookies))
    kwargs.

(** [Session.get_default] *)
Definition get_default (name : string) : M pyval :=
  if String.eqb name "account_id" then account_id else ret PNone.

(** ** Sequences of operations on one session *)

Inductive op : Type :=
  | OpAuthenticate
  | OpCall (r : PreparedRequest)
  | OpRequest (method url : string) (params headers cookies : option loc)
      (kwargs : list (string * pyval))
  | OpGetUrl (service_name : string) (account_id_arg : option string)
  | OpGetDefault (name : string)
  | OpAccountId
  | OpAccountName
  | OpResidency
  | OpGlobalEndpoint
  | OpGlobalEndpointUrl
  | OpToken
  | OpSetCredentials (access_key_id secret_key aims_token : pyval).

Definition is_OpSetCredentials (o : op) : bool :=
  match o with OpSetCredentials _ _ _ => true | _ => false end.

Definition no_setter (ops : list op) : bool :=
  forallb (fun o => negb (is_OpSetCredentials o)) ops.

(** The world after running [m], whether it returned or raised. *)
Definition exec {A} (m : M A) (w : World) : World := snd (m w).

Definition run_op (o : op) : World -> World :=
  match o with
  | OpAuthenticate => exec _authenticate
  | OpCall r => exec (__call__ r)
  | OpRequest method url params headers cookies kwargs =>
      exec (request method url params headers cookies kwargs)
  | OpGetUrl service_name a => exec (get_url service_name a)
  | OpGetDefault name => exec (get_default name)
  | OpAccountId => exec account_id
  | OpAccountName => exec account_name
  | OpResidency => exec residency
  | OpGlobalEndpoint => exec global_endpoint
  | OpGlobalEndpointUrl => exec global_endpoint_url
  | OpToken => exec token
  | OpSetCredentials k sk t => exec (_set_credentials k sk t)
  end.

Definition run_ops (ops : list op) (w : World) : World :=
  fold_left (fun w o => run_op o w) ops w.

(** ** Vocabulary of the statements *)

(** [r'] is [r] with the token header set and nothing else touched. *)
Definition signed_with (r : PreparedRequest) (tok : pyval) (r' : PreparedRequest) : Prop :=
  pr_method r' = pr_method r
  /\ pr_url r' = pr_url r
  /\ pr_body r' = pr_body r
  /\ pr_headers r' !! "x-aims-auth-token" = Some tok
  /\ forall k, k <> "x-aims-auth-token" -> pr_headers r' !! k = pr_headers r !! k.




(** "A fresh session has token, account id and account name all [None]." *)
Definition starts_unset (s : Session) : Prop :=
  _token s = PNone
  /\ _account_id s = PNone
  /\ fst (account_name (new_world s ∅)) = inr PNone.

(** ** How the token may move *)

(** [t] is the [authentication.token] of some answer of the network. *)
Definition token_from_response (t : pyval) : Prop :=
  exists h c r j,
    transport h c = Responded r /\ json_body r = Some j
    /\ getpath j ["authentication"; "token"] = inr t.

(** From [w] to [w']: the history only grows, and the token is either the
    same or was taken from an answer while [_authenticate] ran. *)
Definition token_step (w w' : World) : Prop :=
  exists evs,
    trace w' = trace w ++ evs
    /\ (_token (self w') = _token (self w)
        \/ (In EvAuthenticate evs /\ token_from_response (_token (self w')))).

(** The network never answers with a JSON [null] as token. *)
Definition no_null_token : Prop :=
  forall h c r j,
    transport h c = Responded r -> json_body r = Some j ->
    getpath j ["authentication"; "token"] <> inr PNone.

(** "Once set, the token is never [None] again", over all operations. *)
Definition token_never_cleared : Prop :=
  forall ops w,
    _token (self w) <> PNone -> _token (self (run_ops ops w)) <> PNone.

End Methods.

(** ** Stand-ins for the collaborators, for concrete runs *)

Module Sample.

(** Modelled from the spec: the Config resolver of [almdrlib.config],
    restricted to explicit arguments (no profile file, no environment):
    what was passed is what it supplies, with the production endpoint
    when none is named. *)
Definition Config_new
    (access_key_id secret_key account_id profile global_endpoint : option string)
    (residency : string) : Config.t :=
  Config.mk (of_arg account_id) residency
    (default "production" global_endpoint)
    (of_arg access_key_id, of_arg secret_key).

(** Modelled from the spec: the endpoint directory of [almdrlib.region],
    which maps a global endpoint name to a base URL and a (service,
    account, residency) triple to a directory URL below it. *)
Definition Region_get_global_endpoint (name : string) : string :=
  if String.eqb name "integration" then "https://api.global-integration.example"
  else "https://api.global-services.example".

(** Modelled from the spec: the directory URL of [almdrlib.region], built
    from the global endpoint URL, the service name, the account id and the
    residency. *)
Definition Region_get_endpoint_url
    (base service_name : string) (acct : pyval) (residency : string) : string :=
  base +:+ "/endpoints/v1/"
    +:+ match acct with PStr a => a | _ => "None" end
    +:+ "/residency/" +:+ residency +:+ "/services/" +:+ service_name +:+ "/endpoint".

(** Stand-ins for the texts Python and the transport library produce. *)
Definition str_HTTPError (r : Response) : string := "HTTP error".

Definition py_str (v : pyval) : string :=
  match v with PNone => "None" | PStr s => s | _ => "<value>" end.

(** A well-formed body of the identity service. *)
Definition auth_body (tok : pyval) : pyval :=
  PDict [("authentication",
          PDict [("token", tok);
                 ("account", PDict [("id", PStr "134235158");
                                    ("name", PStr "Acme")])])].

(** A network that answers every call with the same response. *)
Definition always (r : Response) : list event -> HttpCall -> http_result :=
  fun _ _ => Responded r.

(** A network that cannot be reached. *)
Definition offline : list event -> HttpCall -> http_result :=
  fun _ _ => TransportFailed "offline".

(** Answers of the identity service: a good one, and one without the
    token. *)
Definition identity_ok : Response :=
  mkResponse 200 (Some (auth_body (PStr "T-1"))).

Definition identity_without_token : Response :=
  mkResponse 200
    (Some (PDict [("authentication",
                   PDict [("account", PDict [("id", PStr "134235158");
                                             ("name", PStr "Acme")])])])).

(** Answers of the directory for the service [iris]. *)
Definition directory_ok : Response :=
  mkResponse 200 (Some (PDict [("iris", PStr "api.cloudinsight.example")])).

Definition directory_300 : Response :=
  mkResponse 300 (Some (PDict [("iris", PStr "api.cloudinsight.example")])).



(** More answers of the identity service: refused credentials, a token
    without account, a token and an account without name, and a page that
    is not JSON. *)
Definition unauthorized : Response := mkResponse 401 None.

Definition token_only_body : pyval :=
  PDict [("authentication", PDict [("token", PStr "T-1")])].

Definition identity_token_only : Response :=
  mkResponse 200 (Some token_only_body).

Definition nameless_body : pyval :=
  PDict [("authentication",
          PDict [("token", PStr "T-1");
                 ("account", PDict [("id", PStr "134235158")])])].

Definition identity_without_name : Response :=
  mkResponse 200 (Some nameless_body).

Definition html_page : Response := mkResponse 200 None.

(** A directory answer that does not know the service [iris]. *)
Definition directory_other : Response :=
  mkResponse 200 (Some (PDict [("aetuner", PStr "api.cloudinsight.example")])).

Definition key : pyval := PStr "key".
Definition secret : pyval := PStr "secret".

Definition get_request : PreparedRequest :=
  mkPreparedRequest "GET" "https://api.cloudinsight.example/iris/v3" ∅ None.

Definition key_session (account_id : option string) (raise_for_status : bool) : Session :=
  __init__ Config_new Region_get_global_endpoint
    (Some "key") (Some "secret") None account_id None None "us" raise_for_status.

Definition token_session (account_id : option string) : Session :=
  __init__ Config_new Region_get_global_endpoint
    None None (Some "tok-1") account_id None None "us" true.

End Sample.

(** * Properties *)

Section Properties.

Variable Config_new :
  option string -> option string -> option string -> option string ->
  option string -> string -> Config.t.
Variable Region_get_global_endpoint : string -> string.
Variable Region_get_endpoint_url : string -> string -> pyval -> string -> string.
Variable transport : list event -> HttpCall -> http_result.
Variable str_HTTPError : Response -> string.
Variable py_str : pyval -> string.

Local Abbreviation init := (__init__ Config_new Region_get_global_endpoint).
Local Abbreviation authenticate := (_authenticate transport str_HTTPError).
Local Abbreviation account_id' := (account_id transport str_HTTPError).
Local Abbreviation call := (__call__ transport str_HTTPError).
Local Abbreviation get_url' :=
  (get_url Region_get_endpoint_url transport str_HTTPError py_str).
Local Abbreviation request' := (request transport).
Local Abbreviation run_op' :=
  (run_op Region_get_endpoint_url transport str_HTTPError py_str).
Local Abbreviation run_ops' :=
  (run_ops Region_get_endpoint_url transport str_HTTPError py_str).

(** ** Construction *)

Lemma init_with_token ak sk tok aid prof ge res rfs :
  truthy tok = true ->
  let cfg := Config_new ak sk aid prof ge res in
  init ak sk tok aid prof ge res rfs =
    {| _config := cfg;
       _token := of_arg tok;
       _defaults := PNone;
       _account_id := Config.account_id cfg;
       _residency := Config.residency cfg;
       _global_endpoint := Config.global_endpoint cfg;
       _global_endpoint_url :=
         Region_get_global_endpoint (Config.global_endpoint cfg);
       _raise_for_status := rfs;
       _session_auth := None;
       _access_key_id := Undefined;
       _secret_key := Undefined;
       _account_name := Undefined |}.
Proof. intros H cfg. unfold __init__. rewrite H. reflexivity. Qed.

Lemma init_without_token ak sk tok aid prof ge res rfs :
  truthy tok = false ->
  let cfg := Config_new ak sk aid prof ge res in
  init ak sk tok aid prof ge res rfs =
    {| _config := cfg;
       _token := PNone;
       _defaults := PNone;
       _account_id := Config.account_id cfg;
       _residency := Config.residency cfg;
       _global_endpoint := Config.global_endpoint cfg;
       _global_endpoint_url :=
         Region_get_global_endpoint (Config.global_endpoint cfg);
       _raise_for_status := rfs;
       _session_auth := None;
       _access_key_id := Bound (fst (Config.get_auth cfg));
       _secret_key := Bound (snd (Config.get_auth cfg));
       _account_name := Undefined |}.
Proof.
  intros H cfg. unfold __init__. rewrite H. fold cfg.
  destruct (Config.get_auth cfg) as [k sk']. reflexivity.
Qed.

Lemma truthy_not_None tok : truthy tok = true -> of_arg tok <> PNone.
Proof. destruct tok; simpl; [discriminate | discriminate]. Qed.

(** ** [_authenticate] on a session without credentials *)

Lemma authenticate_no_access_key w :
  _access_key_id (self w) = Undefined ->
  authenticate w =
    (inl (AttributeError "_access_key_id"),
     mkWorld (self w) (heap w) (trace w ++ [EvAuthenticate])).
Proof.
  intros H. unfold _authenticate, bind, log, get_self. simpl.
  rewrite H. reflexivity.
Qed.

(** ** Subscripting fails only with what the handlers catch *)

Lemma getitem_error v k e : getitem v k = inl e -> is_lookup_error e = true.
Proof.
  unfold getitem. destruct v; try (intros [= <-]; reflexivity).
  destruct (dict_get entries k); intros [= <-]; reflexivity.
Qed.

Lemma getpath_error ks : forall v e,
  getpath v ks = inl e -> is_lookup_error e = true.
Proof.
  induction ks as [| k ks IH]; intros v e; cbn [getpath]; [discriminate |].
  destruct (getitem v k) as [e' | x] eqn:Hg.
  - intros [= <-]. exact (getitem_error _ _ _ Hg).
  - apply IH.
Qed.

Local Arguments getpath : simpl never.
Local Arguments getitem : simpl never.
Local Arguments String.append : simpl never.
Local Arguments is_error_status : simpl never.
Local Arguments _authenticate : simpl never.
Local Arguments account_id : simpl never.
Local Arguments account_or_own : simpl never.

(** ** [_authenticate] with credentials: the call it makes *)

Ltac run_core :=
  unfold account_name, __call__, get_url, request,
    get_default, residency, global_endpoint, global_endpoint_url, token,
    _set_credentials, session_post, session_get, session_request,
    raise_for_status, response_json, dict_update, get_heap, getattr,
    bind, try_except, lift, ret, raise, log, get_self, modify_self,
    exec, authenticate_call in *;
  cbn [fst snd self heap trace] in *.

Ltac run := unfold _authenticate, account_id in *; run_core.

(** When the body of the identity service's answer is a JSON document
    in which [authentication.token] cannot be found, [_authenticate]
    raises an [AuthenticationException] and the token, the account id and
    the account name are exactly what they were before the call. *)
Theorem authenticate_token_missing_keeps_state w k sk r j :
  _access_key_id (self w) = Bound k ->
  _secret_key (self w) = Bound sk ->
  transport (trace w ++ [EvAuthenticate]) (authenticate_call (self w) k sk)
    = Responded r ->
  json_body r = Some j ->
  (forall tok, getpath j ["authentication"; "token"] <> inr tok) ->
  exists message w',
    authenticate w = (inl (AuthenticationException message), w')
    /\ (is_error_status (status_code r) = false ->
          message = "token not found in response")
    /\ _token (self w') = _token (self w)
    /\ _account_id (self w') = _account_id (self w)
    /\ _account_name (self w') = _account_name (self w).
Proof.
  intros Hk Hsk Hresp Hj Hmiss. run.
  rewrite Hk, Hsk. cbn. rewrite Hresp. cbn.
  destruct (is_error_status (status_code r)) eqn:Hst; cbn.
  - eexists _, _. split; [reflexivity |]. repeat split; congruence.
  - rewrite Hj. cbn.
    destruct (getpath j ["authentication"; "token"]) as [e | tok] eqn:Hp.
    + cbn. rewrite (getpath_error _ _ _ Hp). cbn.
      eexists _, _. split; [reflexivity |]. repeat split; reflexivity.
    + exfalso. exact (Hmiss tok eq_refl).
Qed.

(** ** Reading [account_id] *)

Lemma is_None_false v : v <> PNone -> is_None v = false.
Proof. destruct v; [contradiction | reflexivity ..]. Qed.

Lemma is_None_true v : is_None v = true -> v = PNone.
Proof. destruct v; [reflexivity | discriminate ..]. Qed.

Lemma is_None_neq v : is_None v = false -> v <> PNone.
Proof. destruct v; [discriminate | intros _ ?; discriminate ..]. Qed.

Lemma account_id_known w :
  _account_id (self w) <> PNone ->
  account_id' w = (inr (_account_id (self w)), w).
Proof.
  intros H. unfold account_id, bind, get_self, ret.
  rewrite (is_None_false _ H). reflexivity.
Qed.

Lemma account_id_unknown w :
  _account_id (self w) = PNone ->
  account_id' w =
    match authenticate w with
    | (inl e, w') => (inl e, w')
    | (inr _, w') => (inr (_account_id (self w')), w')
    end.
Proof.
  intros H. unfold account_id, bind, get_self, ret. rewrite H. cbn.
  destruct (authenticate w) as [[e | u] w']; reflexivity.
Qed.

(** C1: a session built from a token has its token set; reading
    [account_id] returns the account id given at construction without
    entering [_authenticate] or touching the network (the world is
    unchanged), and when no account id was given the read enters
    [_authenticate] although the token is set. *)
Theorem account_id_read_with_token ak sk tok aid prof ge res rfs h :
  truthy tok = true ->
  let cfg := Config_new ak sk aid prof ge res in
  let w := new_world (init ak sk tok aid prof ge res rfs) h in
  _token (self w) <> PNone
  /\ if is_None (Config.account_id cfg)
     then exists e, account_id' w = (inl e, mkWorld (self w) h [EvAuthenticate])
     else account_id' w = (inr (Config.account_id cfg), w).
Proof.
  intros Ht cfg w. subst w. rewrite (init_with_token _ _ _ _ _ _ _ _ Ht).
  fold cfg. split; [exact (truthy_not_None _ Ht) |].
  destruct (is_None (Config.account_id cfg)) eqn:Hn.
  - eexists. rewrite account_id_unknown by (cbn; exact (is_None_true _ Hn)).
    rewrite authenticate_no_access_key by reflexivity. reflexivity.
  - rewrite account_id_known; [reflexivity |].
    cbn. exact (is_None_neq _ Hn).
Qed.

(** ** Without [_set_credentials] a keyless session stays keyless *)

Ltac break_match :=
  match goal with
  | |- context [match ?x with _ => _ end] =>
      lazymatch x with
      | context [match _ with _ => _ end] => fail
      | _ => destruct x eqn:?
      end
  end.

Lemma request_self method url p hd c kw w :
  self (exec (request' method url p hd c kw) w) = self w.
Proof. run. repeat (break_match; cbn); reflexivity. Qed.

Lemma keyless_op o w :
  is_OpSetCredentials o = false ->
  _access_key_id (self w) = Undefined ->
  self (run_op' o w) = self w.
Proof.
  intros Ho Hk. destruct o; try discriminate; unfold run_op.
  - unfold exec. rewrite authenticate_no_access_key by assumption. reflexivity.
  - unfold exec, __call__, bind, get_self, ret.
    destruct (is_None (_token (self w))); cbn.
    + rewrite authenticate_no_access_key by assumption. reflexivity.
    + reflexivity.
  - apply request_self.
  - unfold exec, get_url, try_except, bind, get_self, account_or_own. cbn.
    destruct (truthy account_id_arg).
    + run. repeat (break_match; cbn); reflexivity.
    + destruct (is_None (_account_id (self w))) eqn:Hn.
      * rewrite account_id_unknown by exact (is_None_true _ Hn).
        rewrite authenticate_no_access_key by assumption. reflexivity.
      * rewrite account_id_known by exact (is_None_neq _ Hn).
        run. repeat (break_match; cbn); reflexivity.
  - unfold get_default. destruct (String.eqb name "account_id"); [| reflexivity].
    destruct (is_None (_account_id (self w))) eqn:Hn; unfold exec.
    + rewrite account_id_unknown by exact (is_None_true _ Hn).
      rewrite authenticate_no_access_key by assumption. reflexivity.
    + rewrite account_id_known by exact (is_None_neq _ Hn).
      reflexivity.
  - destruct (is_None (_account_id (self w))) eqn:Hn; unfold exec.
    + rewrite account_id_unknown by exact (is_None_true _ Hn).
      rewrite authenticate_no_access_key by assumption. reflexivity.
    + rewrite account_id_known by exact (is_None_neq _ Hn).
      reflexivity.
  - run. repeat (break_match; cbn); reflexivity.
  - reflexivity.
  - reflexivity.
  - reflexivity.
  - reflexivity.
Qed.

Lemma keyless_ops ops : forall w,
  no_setter ops = true ->
  _access_key_id (self w) = Undefined ->
  self (run_ops' ops w) = self w.
Proof.
  induction ops as [| o ops IH]; intros w Hops Hk; [reflexivity |].
  cbn in Hops. apply andb_prop in Hops as [Ho Hops].
  apply negb_true_iff in Ho.
  change (run_ops' (o :: ops) w) with (run_ops' ops (run_op' o w)).
  rewrite IH; [apply keyless_op; assumption | assumption |].
  rewrite keyless_op; assumption.
Qed.

(** C9: a session built from a token never had [_access_key_id] and
    [_secret_key] assigned, and no operation other than
    [_set_credentials] assigns them; so after any such operations
    [_authenticate] stops at the first read of [_access_key_id] with an
    [AttributeError], which is not an [AuthenticationException], having
    made no call on the transport; reading [account_id] when no account
    id was given ends the same way. *)
Theorem token_session_authenticate_attribute_error
    ak sk tok aid prof ge res rfs h ops :
  truthy tok = true ->
  no_setter ops = true ->
  let s := init ak sk tok aid prof ge res rfs in
  let w := run_ops' ops (new_world s h) in
  let failed (A : Type) : (exn + A) * World :=
    (inl (AttributeError "_access_key_id"),
     mkWorld s (heap w) (trace w ++ [EvAuthenticate])) in
  _access_key_id s = Undefined
  /\ _secret_key s = Undefined
  /\ self w = s
  /\ authenticate w = failed unit
  /\ is_AuthenticationException (AttributeError "_access_key_id") = false
  /\ if is_None (_account_id s) then account_id' w = failed pyval
     else account_id' w = (inr (_account_id s), w).
Proof.
  intros Ht Hops s w failed.
  assert (Hk : _access_key_id s = Undefined).
  { subst s. rewrite (init_with_token _ _ _ _ _ _ _ _ Ht). reflexivity. }
  assert (Hsk : _secret_key s = Undefined).
  { subst s. rewrite (init_with_token _ _ _ _ _ _ _ _ Ht). reflexivity. }
  assert (Hself : self w = s).
  { subst w. rewrite keyless_ops; [reflexivity | assumption | exact Hk]. }
  assert (Hauth : authenticate w = failed unit).
  { subst failed. rewrite authenticate_no_access_key by (rewrite Hself; exact Hk).
    rewrite Hself. reflexivity. }
  repeat split; try assumption.
  destruct (is_None (_account_id s)) eqn:Hn.
  - rewrite account_id_unknown by (rewrite Hself; exact (is_None_true _ Hn)).
    rewrite Hauth. reflexivity.
  - rewrite account_id_known by (rewrite Hself; exact (is_None_neq _ Hn)).
    rewrite Hself. reflexivity.
Qed.

(** ** The token moves only inside [_authenticate] *)

Local Abbreviation token_step' := (token_step transport).

Lemma token_step_same w w' evs :
  trace w' = trace w ++ evs ->
  _token (self w') = _token (self w) ->
  token_step' w w'.
Proof. intros Ht Hs. exists evs. split; [exact Ht | left; exact Hs]. Qed.

Lemma token_step_refl w : token_step' w w.
Proof. apply (token_step_same w w []); [symmetry; apply app_nil_r | reflexivity]. Qed.

Lemma token_step_trans w1 w2 w3 :
  token_step' w1 w2 -> token_step' w2 w3 -> token_step' w1 w3.
Proof.
  intros (e1 & Ht1 & H1) (e2 & Ht2 & H2).
  exists (e1 ++ e2). split.
  - rewrite Ht2, Ht1. symmetry. apply app_assoc.
  - destruct H2 as [Heq | [Hin Hfrom]].
    + destruct H1 as [Heq1 | [Hin1 Hfrom1]].
      * left. congruence.
      * right. split; [apply in_or_app; left; exact Hin1 |].
        rewrite Heq. exact Hfrom1.
    + right. split; [apply in_or_app; right; exact Hin | exact Hfrom].
Qed.

Lemma authenticate_token_step w : token_step' w (snd (authenticate w)).
Proof.
  unfold token_step, token_from_response. run.
  repeat (break_match; cbn [fst snd self heap trace set_token set_account_id
                             set_account_name set_session_auth _token] in * );
    repeat match goal with
           | H : (_, _) = (_, _) |- _ => injection H as ? ?; subst
           end;
    cbn [fst snd self heap trace set_token set_account_id
         set_account_name set_session_auth _token] in *;
    rewrite <- ?app_assoc;
    eexists; (split; [reflexivity |]);
    try (left; reflexivity);
    (right; split; [apply in_or_app; left; left; reflexivity |]);
    eauto 10.
Qed.

Lemma account_id_token_step w : token_step' w (snd (account_id' w)).
Proof.
  destruct (is_None (_account_id (self w))) eqn:Hn.
  - rewrite account_id_unknown by exact (is_None_true _ Hn).
    pose proof (authenticate_token_step w) as Hs.
    destruct (authenticate w) as [[e | u] w']; exact Hs.
  - rewrite account_id_known by exact (is_None_neq _ Hn). apply token_step_refl.
Qed.

Lemma request_trace method url p hd c kw w :
  exists ev, trace (exec (request' method url p hd c kw) w) = trace w ++ [ev].
Proof. run. repeat (break_match; cbn); eexists; reflexivity. Qed.

Lemma op_token_step o w :
  is_OpSetCredentials o = false -> token_step' w (run_op' o w).
Proof.
  intros Ho. destruct o; try discriminate; unfold run_op.
  - apply authenticate_token_step.
  - unfold exec, __call__, bind, get_self, ret.
    destruct (is_None (_token (self w))); [| apply token_step_refl].
    pose proof (authenticate_token_step w) as Hs.
    destruct (authenticate w) as [[e | u] w']; exact Hs.
  - destruct (request_trace method url params headers cookies kwargs w) as [ev Hev].
    apply (token_step_same _ _ [ev]); [exact Hev |].
    rewrite request_self. reflexivity.
  - unfold exec, get_url, try_except, bind, get_self, account_or_own. cbn.
    destruct (truthy account_id_arg).
    + run_core. repeat (break_match; cbn);
        (apply token_step_refl || (eapply token_step_same; reflexivity)).
    + pose proof (account_id_token_step w) as Hs.
      destruct (account_id' w) as [[e | a] w1]; cbn in Hs.
      * destruct (is_HTTPError e); [| exact Hs].
        destruct e; exact Hs.
      * apply (token_step_trans _ _ _ Hs).
        run_core. repeat (break_match; cbn);
          (apply token_step_refl || (eapply token_step_same; reflexivity)).
  - unfold get_default. destruct (String.eqb name "account_id").
    + apply account_id_token_step.
    + apply token_step_refl.
  - apply account_id_token_step.
  - unfold exec. run_core. destruct (_account_name (self w)); apply token_step_refl.
  - apply token_step_refl.
  - apply token_step_refl.
  - apply token_step_refl.
  - apply token_step_refl.
Qed.

Lemma ops_token_step ops : forall w,
  no_setter ops = true -> token_step' w (run_ops' ops w).
Proof.
  induction ops as [| o ops IH]; intros w Hops; [apply token_step_refl |].
  cbn in Hops. apply andb_prop in Hops as [Ho Hops].
  apply negb_true_iff in Ho.
  change (run_ops' (o :: ops) w) with (run_ops' ops (run_op' o w)).
  eapply token_step_trans; [apply op_token_step; exact Ho | apply IH; exact Hops].
Qed.

(** C3 (as the code has it): leaving [_set_credentials] aside, and
    against a network that never sends JSON [null] as token, a token
    that is set is never [None] again after any sequence of operations;
    the history only grows; the token differs afterwards only if
    [_authenticate] was entered meanwhile, and then it is the
    [authentication.token] of an answer; [_set_credentials] itself stores
    whatever token it is handed. *)
Theorem token_changes_only_in_authenticate ops w :
  no_setter ops = true ->
  no_null_token transport ->
  let w' := run_ops' ops w in
  (_token (self w) <> PNone -> _token (self w') <> PNone)
  /\ token_step' w w'
  /\ forall k sk t, _token (self (run_op' (OpSetCredentials k sk t) w')) = t.
Proof.
  intros Hops Hnull w'. pose proof (ops_token_step ops w Hops) as Hs.
  fold w' in Hs. repeat split.
  - intros Hset. destruct Hs as (evs & _ & [Heq | [_ Hfrom]]).
    + rewrite Heq. exact Hset.
    + destruct Hfrom as (h & c & r & j & Hr & Hj & Hp).
      intros Hnone. rewrite Hnone in Hp. exact (Hnull _ _ _ _ Hr Hj Hp).
  - exact Hs.
Qed.

(** ** The auth callback *)

Lemma authenticate_enters w :
  exists evs, trace (snd (authenticate w)) = trace w ++ EvAuthenticate :: evs.
Proof.
  run. repeat (break_match; cbn [fst snd self heap trace] in * );
    repeat match goal with
           | H : (_, _) = (_, _) |- _ => injection H as ? ?; subst
           end;
    cbn [fst snd self heap trace] in *;
    rewrite <- ?app_assoc; eexists; reflexivity.
Qed.

Lemma signed_with_insert r tok :
  signed_with r tok
    (mkPreparedRequest (pr_method r) (pr_url r)
       (<["x-aims-auth-token" := tok]> (pr_headers r)) (pr_body r)).
Proof.
  unfold signed_with. cbn. repeat split.
  - apply lookup_insert_eq.
  - intros k Hk. apply lookup_insert_ne. congruence.
Qed.

(** C4: with a token already set the callback leaves the world as it is
    (no [_authenticate], no call) and returns the request with the
    [x-aims-auth-token] header set to the token; with the token [None] it
    first runs [_authenticate], and then, unless that raised, returns the
    request with the header set to the token the session now holds.  In
    both cases method, URL, body and every other header are the ones of
    the request it was given. *)
Theorem call_signs_request w r :
  let '(res, w') := call r w in
  if is_None (_token (self w))
  then
    w' = snd (authenticate w)
    /\ (exists evs, trace w' = trace w ++ EvAuthenticate :: evs)
    /\ match res with
       | inl e => fst (authenticate w) = inl e
       | inr r' =>
           fst (authenticate w) = inr tt /\ signed_with r (_token (self w')) r'
       end
  else
    w' = w /\ exists r', res = inr r' /\ signed_with r (_token (self w)) r'.
Proof.
  unfold __call__, bind, get_self, ret.
  destruct (is_None (_token (self w))) eqn:Hn.
  - pose proof (authenticate_enters w) as Hev.
    destruct (authenticate w) as [[e | []] w1]; cbn in *.
    + repeat split; assumption.
    + repeat split; try assumption; apply signed_with_insert.
  - split; [reflexivity |]. eexists. split; [reflexivity |].
    apply signed_with_insert.
Qed.

(** ** The generic request *)


(** C5: whatever the token is, [request] leaves the session object as it
    is and adds exactly one entry to the history, the call it hands to
    the transport, whose [x-aims-auth-token] header is the current token
    ([None] included); [_authenticate] is never entered. *)
Theorem request_never_authenticates method url p hd c kw w :
  let w' := exec (request' method url p hd c kw) w in
  let sent := request_call w method url p hd c kw in
  self w' = self w
  /\ trace w' = trace w ++ [EvHttp sent]
  /\ hc_method sent = method
  /\ hc_url sent = url
  /\ hc_kwargs sent = kw
  /\ hc_headers sent !! "x-aims-auth-token" = Some (_token (self w)).
Proof.
  intros w' sent.
  assert (Hh : hc_headers sent !! "x-aims-auth-token" = Some (_token (self w))).
  { subst sent. unfold request_call, deref. cbn.
    rewrite lookup_insert_eq. cbn. apply lookup_insert_eq. }
  split; [apply request_self |].
  split.
  { subst w' sent. unfold request_call. run.
    repeat (break_match; cbn); reflexivity. }
  repeat split; assumption.
Qed.


(** C10: [request] changes the headers dictionary it is given, in place:
    afterwards that object holds what it held before plus the
    [x-aims-auth-token] entry, whether the call returned or raised, and
    no other object changed.  With [headers] omitted the object is the
    default of the method, so the entry is still there when the next call
    starts and after it. *)
Theorem request_mutates_headers method url p hd c kw w :
  let w' := exec (request' method url p hd c kw) w in
  let l := default request_default_headers hd in
  let w1 := exec (request' method url p None c kw) w in
  heap w' !! l
    = Some (<["x-aims-auth-token" := _token (self w)]> (deref (heap w) l))
  /\ (forall l', l' <> l -> heap w' !! l' = heap w !! l')
  /\ deref (heap w1) request_default_headers !! "x-aims-auth-token"
       = Some (_token (self w))
  /\ forall method2 url2 p2 c2 kw2,
      heap (exec (request' method2 url2 p2 None c2 kw2) w1)
        !! request_default_headers
      = Some (<["x-aims-auth-token" := _token (self w)]>
                (deref (heap w) request_default_headers)).
Proof.
  assert (Hheap : forall m u p' hd' c' kw' w0,
            heap (exec (request' m u p' hd' c' kw') w0) =
              <[default request_default_headers hd' :=
                  <["x-aims-auth-token" := _token (self w0)]>
                    (deref (heap w0) (default request_default_headers hd'))]>
                (heap w0)).
  { intros. run. repeat (break_match; cbn); reflexivity. }
  intros w' l w1.
  assert (Hl1 : heap w1 !! request_default_headers
            = Some (<["x-aims-auth-token" := _token (self w)]>
                      (deref (heap w) request_default_headers))).
  { subst w1. rewrite Hheap. apply lookup_insert_eq. }
  split; [subst w' l; rewrite Hheap; apply lookup_insert_eq |].
  split; [intros l' Hne; subst w' l; rewrite Hheap; apply lookup_insert_ne; congruence |].
  split; [unfold deref; rewrite Hl1; cbn; apply lookup_insert_eq |].
  intros method2 url2 p2 c2 kw2.
  rewrite Hheap. cbn [default]. rewrite lookup_insert_eq. f_equal.
  assert (Hself : self w1 = self w) by apply request_self.
  rewrite Hself. unfold deref at 1. rewrite Hl1. cbn. apply insert_insert_eq.
Qed.

(** ** A fresh session and its first authentication *)

(** Reading [account_name] before any authentication: the attribute does
    not exist yet. *)
Lemma account_name_before_authenticate ak sk tok aid prof ge res rfs h :
  let w := new_world (init ak sk tok aid prof ge res rfs) h in
  account_name w = (inl (AttributeError "_account_name"), w).
Proof.
  intros w. subst w. unfold __init__.
  destruct (truthy tok); [reflexivity |].
  destruct (Config.get_auth _); reflexivity.
Qed.

(** C7 (as the code has it): a session built without a token starts with
    the token [None] and with the account id the configuration supplies
    ([None] only when it supplies none); an [_authenticate] that is
    answered with a well-formed body returns normally and stores the
    token and the account name of the answer, and the account id of the
    answer when the session had none, keeping a configured one. *)
Theorem fresh_session_populated_by_authenticate
    ak sk tok aid prof ge res rfs h r j t i n :
  truthy tok = false ->
  let cfg := Config_new ak sk aid prof ge res in
  let s := init ak sk tok aid prof ge res rfs in
  let w := new_world s h in
  transport [EvAuthenticate]
    (authenticate_call s (fst (Config.get_auth cfg)) (snd (Config.get_auth cfg)))
    = Responded r ->
  is_error_status (status_code r) = false ->
  json_body r = Some j ->
  getpath j ["authentication"; "token"] = inr t ->
  (is_None (Config.account_id cfg) = true ->
   getpath j ["authentication"; "account"; "id"] = inr i) ->
  getpath j ["authentication"; "account"; "name"] = inr n ->
  _token s = PNone
  /\ _account_id s = Config.account_id cfg
  /\ exists w',
      authenticate w = (inr tt, w')
      /\ _token (self w') = t
      /\ _account_name (self w') = Bound n
      /\ _account_id (self w')
         = if is_None (Config.account_id cfg) then i else Config.account_id cfg.
Proof.
  intros Ht cfg s w Hr Hst Hj Htok Hid Hname.
  subst w s. rewrite (init_without_token _ _ _ _ _ _ _ _ Ht) in *. fold cfg in Hr |- *.
  split; [reflexivity |]. split; [reflexivity |].
  unfold authenticate_call in Hr. cbn in Hr.
  run. cbn. rewrite Hr. cbn. rewrite Hst. cbn. rewrite Hj. cbn. rewrite Htok. cbn.
  destruct (is_None (Config.account_id cfg)) eqn:Hn; cbn.
  - rewrite (Hid eq_refl). cbn. rewrite Hname. cbn.
    eexists. repeat split.
  - rewrite Hname. cbn. eexists. repeat split.
Qed.

(** ** The directory lookup *)

Lemma authenticate_keeps_endpoint w :
  _global_endpoint_url (self (snd (authenticate w))) = _global_endpoint_url (self w).
Proof.
  run. repeat (break_match; cbn [fst snd self heap trace] in * );
    repeat match goal with
           | H : (_, _) = (_, _) |- _ => injection H as ? ?; subst
           end;
    reflexivity.
Qed.

Lemma account_or_own_keeps_endpoint arg w :
  _global_endpoint_url (self (snd (account_or_own transport str_HTTPError arg w)))
    = _global_endpoint_url (self w).
Proof.
  unfold account_or_own. destruct (truthy arg); [reflexivity |].
  destruct (is_None (_account_id (self w))) eqn:Hn.
  - rewrite account_id_unknown by exact (is_None_true _ Hn).
    pose proof (authenticate_keeps_endpoint w) as Hk.
    destruct (authenticate w) as [[e | u] w']; exact Hk.
  - rewrite account_id_known by exact (is_None_neq _ Hn). reflexivity.
Qed.

Lemma get_url_outcome service_name arg w acct w1 r :
  account_or_own transport str_HTTPError arg w = (inr acct, w1) ->
  transport (trace w1)
    (directory_call Region_get_endpoint_url (self w1) service_name acct)
    = Responded r ->
  get_url' service_name arg w =
    (if is_error_status (status_code r)
     then inl (AuthenticationException
                 ("invalid http response from endpoints service "
                    +:+ str_HTTPError r))
     else match json_body r with
          | None => inl JSONDecodeError
          | Some body =>
              match getitem body service_name with
              | inl e => inl e
              | inr host => inr (format_https py_str host)
              end
          end,
     mkWorld (self w1) (heap w1)
       (trace w1 ++
          [EvHttp (directory_call Region_get_endpoint_url (self w1) service_name acct)])).
Proof.
  intros Hacct Hr.
  pose proof (account_or_own_keeps_endpoint arg w) as Hu.
  rewrite Hacct in Hu. cbn in Hu.
  unfold directory_call in *. rewrite Hu in *.
  unfold get_url, try_except, bind, get_self. cbn.
  rewrite Hacct. run_core. rewrite Hr. cbn.
  destruct (is_error_status (status_code r)); cbn; [reflexivity |].
  destruct (json_body r); cbn; [| reflexivity].
  destruct (getitem p service_name); reflexivity.
Qed.



(** ** [_authenticate], outcome by outcome *)

Ltac inject_pairs :=
  repeat match goal with
         | H : (_, _) = (_, _) |- _ => injection H as ? ?; subst
         end.

(** X1: an answer of the identity service with a status from 400 to 599
    makes [_authenticate] raise an [AuthenticationException] that carries
    the text of the HTTP error; the key pair went onto the transport
    session, one call was made, and token, account id and account name are
    untouched. *)
Theorem authenticate_http_error w k sk r :
  _access_key_id (self w) = Bound k ->
  _secret_key (self w) = Bound sk ->
  transport (trace w ++ [EvAuthenticate]) (authenticate_call (self w) k sk)
    = Responded r ->
  is_error_status (status_code r) = true ->
  authenticate w =
    (inl (AuthenticationException ("invalid http response " +:+ str_HTTPError r)),
     mkWorld (set_session_auth (k, sk) (self w)) (heap w)
       (trace w ++ [EvAuthenticate; EvHttp (authenticate_call (self w) k sk)])).
Proof.
  intros Hk Hsk Hr Hst. run. rewrite Hk, Hsk. cbn. rewrite Hr. cbn.
  rewrite Hst. cbn. rewrite <- app_assoc. reflexivity.
Qed.

(** X2: when the answer carries a token but no account id and the session
    knows no account id, [_authenticate] raises "account id not found in
    response" and the token of the answer stays stored on the session:
    the failure is not rolled back. *)
Theorem authenticate_account_id_missing_keeps_token w k sk r j t e :
  _access_key_id (self w) = Bound k ->
  _secret_key (self w) = Bound sk ->
  transport (trace w ++ [EvAuthenticate]) (authenticate_call (self w) k sk)
    = Responded r ->
  is_error_status (status_code r) = false ->
  json_body r = Some j ->
  getpath j ["authentication"; "token"] = inr t ->
  _account_id (self w) = PNone ->
  getpath j ["authentication"; "account"; "id"] = inl e ->
  authenticate w =
    (inl (AuthenticationException "account id not found in response"),
     mkWorld (set_token t (set_session_auth (k, sk) (self w))) (heap w)
       (trace w ++ [EvAuthenticate; EvHttp (authenticate_call (self w) k sk)])).
Proof.
  intros Hk Hsk Hr Hst Hj Ht Hid He. run. rewrite Hk, Hsk. cbn. rewrite Hr. cbn.
  rewrite Hst. cbn. rewrite Hj. cbn. rewrite Ht. cbn. rewrite Hid. cbn.
  rewrite He. cbn. rewrite (getpath_error _ _ _ He). cbn.
  rewrite <- app_assoc. reflexivity.
Qed.

(** X3: when the account name cannot be found, [_authenticate] raises
    "account name not found in response" after it has stored the token
    and, for a session without account id, the account id of the answer;
    the account name attribute is what it was. *)
Theorem authenticate_account_name_missing w k sk r j t i e :
  _access_key_id (self w) = Bound k ->
  _secret_key (self w) = Bound sk ->
  transport (trace w ++ [EvAuthenticate]) (authenticate_call (self w) k sk)
    = Responded r ->
  is_error_status (status_code r) = false ->
  json_body r = Some j ->
  getpath j ["authentication"; "token"] = inr t ->
  getpath j ["authentication"; "account"; "id"] = inr i ->
  getpath j ["authentication"; "account"; "name"] = inl e ->
  exists w',
    authenticate w
      = (inl (AuthenticationException "account name not found in response"), w')
    /\ _token (self w') = t
    /\ _account_id (self w')
       = (if is_None (_account_id (self w)) then i else _account_id (self w))
    /\ _account_name (self w') = _account_name (self w).
Proof.
  intros Hk Hsk Hr Hst Hj Ht Hi He. run. rewrite Hk, Hsk. cbn. rewrite Hr. cbn.
  rewrite Hst. cbn. rewrite Hj. cbn. rewrite Ht. cbn.
  destruct (is_None (_account_id (self w))) eqn:Hn; cbn.
  - rewrite Hi. cbn. rewrite He. cbn. rewrite (getpath_error _ _ _ He). cbn.
    eexists. repeat split.
  - rewrite He. cbn. rewrite (getpath_error _ _ _ He). cbn.
    eexists. repeat split.
Qed.

(** X4: a body that is not JSON, under a status that is not an error, is
    not turned into an [AuthenticationException]: the decoding error of
    [response.json()] leaves [_authenticate] as it is, and no attribute of
    the session but the transport's key pair has changed. *)
Theorem authenticate_body_not_json w k sk r :
  _access_key_id (self w) = Bound k ->
  _secret_key (self w) = Bound sk ->
  transport (trace w ++ [EvAuthenticate]) (authenticate_call (self w) k sk)
    = Responded r ->
  is_error_status (status_code r) = false ->
  json_body r = None ->
  authenticate w =
    (inl JSONDecodeError,
     mkWorld (set_session_auth (k, sk) (self w)) (heap w)
       (trace w ++ [EvAuthenticate; EvHttp (authenticate_call (self w) k sk)])).
Proof.
  intros Hk Hsk Hr Hst Hj. run. rewrite Hk, Hsk. cbn. rewrite Hr. cbn.
  rewrite Hst. cbn. rewrite Hj. cbn. rewrite <- app_assoc. reflexivity.
Qed.

Lemma authenticate_trace_with_keys w k sk :
  _access_key_id (self w) = Bound k ->
  _secret_key (self w) = Bound sk ->
  trace (exec authenticate w)
    = trace w ++ [EvAuthenticate; EvHttp (authenticate_call (self w) k sk)]
  /\ heap (exec authenticate w) = heap w.
Proof.
  intros Hk Hsk. run. rewrite Hk, Hsk. cbn.
  repeat (break_match; cbn [fst snd self heap trace] in * ); inject_pairs;
    cbn [fst snd self heap trace]; rewrite <- ?app_assoc; split; reflexivity.
Qed.

(** X5: whatever the network answers, and also when it does not answer,
    [_authenticate] on a session with a key pair makes exactly one call:
    the POST to [<global endpoint>/aims/v1/authenticate] with that pair as
    basic auth, no parameters, headers or body.  Nothing is retried. *)
Theorem authenticate_single_call w k sk :
  _access_key_id (self w) = Bound k ->
  _secret_key (self w) = Bound sk ->
  trace (exec authenticate w)
    = trace w ++ [EvAuthenticate; EvHttp (authenticate_call (self w) k sk)]
  /\ heap (exec authenticate w) = heap w.
Proof. exact (authenticate_trace_with_keys w k sk). Qed.

Lemma authenticate_error_kind w e w' :
  authenticate w = (inl e, w') -> is_HTTPError e = false.
Proof.
  run. repeat (break_match; cbn [fst snd self heap trace] in * ); inject_pairs;
    intros [= <- <-];
    cbn; try reflexivity; try discriminate; try congruence;
    match goal with
    | H : getpath _ _ = inl ?e, H' : is_lookup_error ?e = false |- _ =>
        rewrite (getpath_error _ _ _ H) in H'; discriminate H'
    end.
Qed.

(** X6: no [HTTPError] ever leaves [_authenticate]: the one that
    [raise_for_status] can raise is always replaced by an
    [AuthenticationException]. *)
Theorem authenticate_never_raises_HTTPError w :
  match fst (authenticate w) with
  | inl e => is_HTTPError e = false
  | inr _ => True
  end.
Proof.
  destruct (authenticate w) as [[e | u] w'] eqn:Ha; cbn; [| exact I].
  exact (authenticate_error_kind _ _ _ Ha).
Qed.

(** ** What a successful [_authenticate] leaves behind *)

Lemma authenticate_success w u w' :
  authenticate w = (inr u, w') ->
  token_from_response transport (_token (self w'))
  /\ exists n, _account_name (self w') = Bound n.
Proof.
  unfold token_from_response. run.
  repeat (break_match; cbn [fst snd self heap trace] in * ); inject_pairs;
    intros [= <- <-]; cbn; (split; [eauto 10 | eexists; reflexivity]).
Qed.

(** X7: after [_authenticate] has returned normally, [account_name] can be
    read (it no longer raises) and the read changes nothing; the token the
    session holds is the [authentication.token] of an answer. *)
Theorem authenticate_success_makes_account_name_readable w w' :
  authenticate w = (inr tt, w') ->
  token_from_response transport (_token (self w'))
  /\ exists n, account_name w' = (inr n, w').
Proof.
  intros Ha. destruct (authenticate_success _ _ _ Ha) as [Ht [n Hn]].
  split; [exact Ht |]. exists n. run_core. rewrite Hn. reflexivity.
Qed.

(** X8: [_set_credentials] assigns the key pair and the token and nothing
    else; an [_authenticate] right after it reaches the network with
    exactly that pair, also on a session that was built from a token and
    had no key pair. *)
Theorem set_credentials_then_authenticate w k sk t :
  let w1 := exec (_set_credentials k sk t) w in
  self w1 = set_token t (set_keys k sk (self w))
  /\ heap w1 = heap w
  /\ trace w1 = trace w
  /\ _account_id (self w1) = _account_id (self w)
  /\ _account_name (self w1) = _account_name (self w)
  /\ trace (exec authenticate w1)
       = trace w ++ [EvAuthenticate; EvHttp (authenticate_call (self w) k sk)].
Proof.
  intros w1.
  assert (Hw1 : w1 = mkWorld (set_token t (set_keys k sk (self w))) (heap w) (trace w))
    by reflexivity.
  repeat split; try (rewrite Hw1; reflexivity).
  destruct (authenticate_trace_with_keys w1 k sk) as [Htr _];
    try (rewrite Hw1; reflexivity).
  rewrite Htr, Hw1. reflexivity.
Qed.

(** X9: on a network that never sends JSON [null] as token, once the
    callback has signed one request, the session holds a token, and the
    callback signs any further request with that same token without
    entering [_authenticate] or calling the network again. *)
Theorem call_twice_same_token w r1 r1' w1 r2 :
  no_null_token transport ->
  call r1 w = (inr r1', w1) ->
  _token (self w1) <> PNone
  /\ signed_with r1 (_token (self w1)) r1'
  /\ exists r2',
       call r2 w1 = (inr r2', w1) /\ signed_with r2 (_token (self w1)) r2'.
Proof.
  intros Hnull Hc.
  assert (Hsecond : _token (self w1) <> PNone ->
            exists r2', call r2 w1 = (inr r2', w1)
                        /\ signed_with r2 (_token (self w1)) r2').
  { intros Hset. unfold __call__, bind, get_self, ret.
    rewrite (is_None_false _ Hset). eexists. split; [reflexivity |].
    apply signed_with_insert. }
  unfold __call__, bind, get_self, ret in Hc.
  destruct (is_None (_token (self w))) eqn:Hn.
  - destruct (authenticate w) as [[e | u] w'] eqn:Ha; [discriminate |].
    injection Hc as <- <-.
    destruct (authenticate_success _ _ _ Ha) as [(h & c & r & j & Hr & Hj & Hp) _].
    assert (Hset : _token (self w') <> PNone).
    { intros Hnone. rewrite Hnone in Hp. exact (Hnull _ _ _ _ Hr Hj Hp). }
    split; [exact Hset |]. split; [apply signed_with_insert | exact (Hsecond Hset)].
  - injection Hc as <- <-.
    pose proof (is_None_neq _ Hn) as Hset.
    split; [exact Hset |]. split; [apply signed_with_insert | exact (Hsecond Hset)].
Qed.

(** ** What an operation can do to the session object *)

Lemma account_id_world w :
  snd (account_id' w)
    = if is_None (_account_id (self w)) then snd (authenticate w) else w.
Proof.
  destruct (is_None (_account_id (self w))) eqn:Hn.
  - rewrite account_id_unknown by exact (is_None_true _ Hn).
    destruct (authenticate w) as [[e | u] w']; reflexivity.
  - rewrite account_id_known by exact (is_None_neq _ Hn). reflexivity.
Qed.

Lemma account_or_own_world arg w :
  snd (account_or_own transport str_HTTPError arg w)
    = if truthy arg then w
      else if is_None (_account_id (self w)) then snd (authenticate w) else w.
Proof.
  unfold account_or_own. destruct (truthy arg); [reflexivity |].
  apply account_id_world.
Qed.

Lemma account_or_own_error_kind arg w e w1 :
  account_or_own transport str_HTTPError arg w = (inl e, w1) ->
  is_HTTPError e = false.
Proof.
  unfold account_or_own. destruct (truthy arg); [discriminate |].
  destruct (is_None (_account_id (self w))) eqn:Hn.
  - rewrite account_id_unknown by exact (is_None_true _ Hn).
    destruct (authenticate w) as [[e' | u] w'] eqn:Ha; [| discriminate].
    intros [= <- <-]. exact (authenticate_error_kind _ _ _ Ha).
  - rewrite account_id_known by exact (is_None_neq _ Hn). discriminate.
Qed.

(** After the account is resolved, [get_url] adds at most its one call and
    touches neither the session nor the heap. *)
Lemma get_url_after_account service_name arg w :
  let w1 := snd (account_or_own transport str_HTTPError arg w) in
  let w' := exec (get_url' service_name arg) w in
  self w' = self w1 /\ heap w' = heap w1
  /\ (trace w' = trace w1 \/ exists c, trace w' = trace w1 ++ [EvHttp c]).
Proof.
  intros w1 w'. subst w1 w'. unfold exec, get_url, try_except, bind, get_self. cbn.
  destruct (account_or_own transport str_HTTPError arg w) as [[e | a] w1] eqn:Ha; cbn.
  - rewrite (account_or_own_error_kind _ _ _ _ Ha). cbn. auto.
  - run_core. repeat (break_match; cbn); (split; [reflexivity |]);
      (split; [reflexivity |]); right; eexists; reflexivity.
Qed.

(** Every operation leaves the session object as it was, or as
    [_authenticate] leaves it, or as [_set_credentials] sets it. *)
Lemma op_self_cases o w :
  self (run_op' o w) = self w
  \/ self (run_op' o w) = self (snd (authenticate w))
  \/ exists k sk t, self (run_op' o w) = set_token t (set_keys k sk (self w)).
Proof.
  destruct o; unfold run_op.
  - right; left; reflexivity.
  - unfold exec, __call__, bind, get_self, ret.
    destruct (is_None (_token (self w))); [| left; reflexivity].
    right; left. destruct (authenticate w) as [[e | u] w']; reflexivity.
  - left. apply request_self.
  - destruct (get_url_after_account service_name account_id_arg w) as [Hs _].
    rewrite Hs, account_or_own_world.
    destruct (truthy account_id_arg); [left; reflexivity |].
    destruct (is_None (_account_id (self w))); [right; left | left]; reflexivity.
  - unfold get_default. destruct (String.eqb name "account_id"); [| left; reflexivity].
    unfold exec. rewrite account_id_world.
    destruct (is_None (_account_id (self w))); [right; left | left]; reflexivity.
  - unfold exec. rewrite account_id_world.
    destruct (is_None (_account_id (self w))); [right; left | left]; reflexivity.
  - left. unfold exec. run_core. destruct (_account_name (self w)); reflexivity.
  - left; reflexivity.
  - left; reflexivity.
  - left; reflexivity.
  - left; reflexivity.
  - right; right. exists access_key_id, secret_key, aims_token. reflexivity.
Qed.

Lemma authenticate_keeps_known_account_id w :
  _account_id (self w) <> PNone ->
  _account_id (self (snd (authenticate w))) = _account_id (self w).
Proof.
  intros Hid. pose proof (is_None_false _ Hid) as Hn. run.
  repeat (break_match; cbn [fst snd self heap trace set_token set_session_auth
                             set_account_id set_account_name _account_id] in * );
    inject_pairs;
    cbn [fst snd self heap trace set_token set_session_auth
         set_account_id set_account_name _account_id] in *;
    try reflexivity; congruence.
Qed.

Lemma authenticate_same_settings w :
  same_settings (self w) (self (snd (authenticate w))).
Proof.
  unfold same_settings. run.
  repeat (break_match; cbn [fst snd self heap trace] in * ); inject_pairs;
    cbn; repeat split.
Qed.

(** X10: an account id that the session knows is never replaced: after any
    sequence of operations, [_set_credentials] and repeated
    [_authenticate] included, it is the same value, whatever account id
    the answers of the identity service carry. *)
Theorem known_account_id_never_changes ops : forall w,
  _account_id (self w) <> PNone ->
  _account_id
    (self (run_ops Region_get_endpoint_url transport str_HTTPError py_str ops w))
  = _account_id (self w).
Proof.
  induction ops as [| o ops IH]; intros w Hid; [reflexivity |].
  change (run_ops' (o :: ops) w) with (run_ops' ops (run_op' o w)).
  assert (Hstep : _account_id (self (run_op' o w)) = _account_id (self w)).
  { destruct (op_self_cases o w) as [-> | [-> | (k & sk & t & ->)]].
    - reflexivity.
    - apply authenticate_keeps_known_account_id. exact Hid.
    - reflexivity. }
  rewrite IH; [exact Hstep | rewrite Hstep; exact Hid].
Qed.

(** X11: residency, global endpoint, global endpoint URL, the
    [raise_for_status] flag, the configuration and [_defaults] are fixed at
    construction: no sequence of operations changes any of them. *)
Theorem settings_never_change ops : forall w,
  same_settings (self w) (self (run_ops' ops w)).
Proof.
  induction ops as [| o ops IH]; intros w; [unfold same_settings; repeat split |].
  change (run_ops' (o :: ops) w) with (run_ops' ops (run_op' o w)).
  assert (Hstep : same_settings (self w) (self (run_op' o w))).
  { destruct (op_self_cases o w) as [-> | [-> | (k & sk & t & ->)]].
    - unfold same_settings; repeat split.
    - apply authenticate_same_settings.
    - unfold same_settings; repeat split. }
  specialize (IH (run_op' o w)). unfold same_settings in *.
  destruct Hstep as (H1 & H2 & H3 & H4 & H5 & H6).
  destruct IH as (I1 & I2 & I3 & I4 & I5 & I6).
  repeat split; congruence.
Qed.

(** ** How much an operation talks to the network *)

Lemma count_events_app p evs1 evs2 :
  count_events p (evs1 ++ evs2) = count_events p evs1 + count_events p evs2.
Proof.
  induction evs1 as [| e evs1 IH]; [reflexivity |].
  cbn [app count_events]. rewrite IH. lia.
Qed.

Lemma gained_nothing w a n : gained w w a n.
Proof. exists []. rewrite app_nil_r. cbn. repeat split; lia. Qed.

Lemma gained_trans w1 w2 w3 a1 n1 a2 n2 :
  gained w1 w2 a1 n1 -> gained w2 w3 a2 n2 -> gained w1 w3 (a1 + a2) (n1 + n2).
Proof.
  intros (e1 & Ht1 & Ha1 & Hn1) (e2 & Ht2 & Ha2 & Hn2).
  exists (e1 ++ e2). rewrite Ht2, Ht1, <- app_assoc, !count_events_app.
  repeat split; lia.
Qed.

Lemma gained_weaken w w' a n a' n' :
  gained w w' a n -> a <= a' -> n <= n' -> gained w w' a' n'.
Proof.
  intros (evs & Ht & Ha & Hn) Hle1 Hle2. exists evs. repeat split; [exact Ht | lia | lia].
Qed.

Lemma authenticate_gained w : gained w (snd (authenticate w)) 1 1.
Proof.
  unfold gained. run.
  repeat (break_match; cbn [fst snd self heap trace] in * ); inject_pairs;
    cbn [fst snd self heap trace]; rewrite <- ?app_assoc;
    eexists; (split; [reflexivity |]); cbn; split; lia.
Qed.

(** X12: nothing is retried and nothing loops: one operation enters
    [_authenticate] at most once and makes at most two calls on the
    transport (the authentication and the operation's own). *)
Theorem op_network_use_bounded o w : gained w (run_op' o w) 1 2.
Proof.
  assert (Hauth : gained w (snd (authenticate w)) 1 2).
  { apply (gained_weaken _ _ 1 1); [apply authenticate_gained | lia | lia]. }
  assert (Hacct : forall arg,
            gained w (snd (account_or_own transport str_HTTPError arg w)) 1 1).
  { intros arg. rewrite account_or_own_world.
    destruct (truthy arg); [apply gained_nothing |].
    destruct (is_None (_account_id (self w)));
      [apply authenticate_gained | apply gained_nothing]. }
  destruct o; unfold run_op.
  - exact Hauth.
  - unfold exec, __call__, bind, get_self, ret.
    destruct (is_None (_token (self w))); [| apply gained_nothing].
    destruct (authenticate w) as [[e | u] w']; exact Hauth.
  - destruct (request_trace method url params headers cookies kwargs w) as [ev Hev].
    exists [ev]. split; [exact Hev |]. cbn. destruct ev; cbn; split; lia.
  - destruct (get_url_after_account service_name account_id_arg w) as (_ & _ & Ht).
    apply (gained_weaken _ _ (1 + 0) (1 + 1)); [| lia | lia].
    eapply gained_trans; [apply Hacct |].
    destruct Ht as [Ht | [c Ht]].
    + exists []. rewrite app_nil_r. cbn. repeat split; [exact Ht | lia | lia].
    + exists [EvHttp c]. cbn. repeat split; [exact Ht | lia | lia].
  - unfold get_default. destruct (String.eqb name "account_id"); [| apply gained_nothing].
    unfold exec. rewrite account_id_world.
    destruct (is_None (_account_id (self w))); [exact Hauth | apply gained_nothing].
  - unfold exec. rewrite account_id_world.
    destruct (is_None (_account_id (self w))); [exact Hauth | apply gained_nothing].
  - unfold exec. run_core. destruct (_account_name (self w)); apply gained_nothing.
  - apply gained_nothing.
  - apply gained_nothing.
  - apply gained_nothing.
  - apply gained_nothing.
  - exists []. rewrite app_nil_r. cbn. repeat split; lia.
Qed.

(** ** What [request] sends besides the token *)

Lemma request_trace_sent method url p hd c kw w :
  trace (exec (request' method url p hd c kw) w)
    = trace w ++ [EvHttp (request_call w method url p hd c kw)].
Proof. unfold request_call. run. repeat (break_match; cbn); reflexivity. Qed.

(** X13: when the parameters and the cookies are other objects than the
    headers (as they are when all three are omitted), [request] sends them
    exactly as the caller left them, and every header of the caller except
    [x-aims-auth-token] goes out unchanged; a token header the caller had
    set is overwritten. *)
Theorem request_keeps_other_arguments method url p hd c kw w :
  default request_default_params p <> default request_default_headers hd ->
  default request_default_cookies c <> default request_default_headers hd ->
  exists sent,
    trace (exec (request' method url p hd c kw) w) = trace w ++ [EvHttp sent]
    /\ hc_params sent = deref (heap w) (default request_default_params p)
    /\ hc_cookies sent = deref (heap w) (default request_default_cookies c)
    /\ hc_headers sent !! "x-aims-auth-token" = Some (_token (self w))
    /\ forall k, k <> "x-aims-auth-token" ->
         hc_headers sent !! k
           = deref (heap w) (default request_default_headers hd) !! k.
Proof.
  intros Hp Hc. eexists. split; [apply request_trace_sent |].
  unfold request_call, deref. cbn.
  rewrite lookup_insert_eq. cbn.
  rewrite !lookup_insert_ne by congruence.
  repeat split.
  - apply lookup_insert_eq.
  - intros k Hk. apply lookup_insert_ne. congruence.
Qed.

(** X14: when one and the same dictionary is passed as [params] and as
    [headers], the token that [request] puts into the headers is also sent
    as a query parameter. *)
Theorem request_shared_dict_leaks_token method url l c kw w :
  exists sent,
    trace (exec (request' method url (Some l) (Some l) c kw) w)
      = trace w ++ [EvHttp sent]
    /\ hc_params sent = hc_headers sent
    /\ hc_params sent !! "x-aims-auth-token" = Some (_token (self w)).
Proof.
  eexists. split; [apply request_trace_sent |].
  unfold request_call, deref. cbn. rewrite lookup_insert_eq. cbn.
  split; [reflexivity | apply lookup_insert_eq].
Qed.

(** ** More on the directory lookup *)

(** X15: with a non-empty account id argument, [get_url] neither reads the
    session's account id nor authenticates, even on a session that has
    neither token nor account id: it makes its one GET for the given
    account, without any header (so without the token), and leaves the
    session and the heap as they were. *)
Theorem get_url_with_account_argument service_name a w :
  truthy (Some a) = true ->
  let w' := exec (get_url' service_name (Some a)) w in
  let sent := directory_call Region_get_endpoint_url (self w) service_name (PStr a) in
  self w' = self w
  /\ heap w' = heap w
  /\ trace w' = trace w ++ [EvHttp sent]
  /\ hc_method sent = "GET"
  /\ hc_headers sent = ∅.
Proof.
  intros Ht w' sent. subst w' sent.
  unfold exec, get_url, try_except, bind, get_self, account_or_own, directory_call.
  rewrite Ht. run_core.
  repeat (break_match; cbn); repeat split.
Qed.

(** X16: when the account cannot be resolved because [_authenticate]
    raised, [get_url] raises that very exception (it is not rewrapped) and
    makes no call to the directory. *)
Theorem get_url_account_failure_propagates service_name arg w e w1 :
  account_or_own transport str_HTTPError arg w = (inl e, w1) ->
  get_url' service_name arg w = (inl e, w1).
Proof.
  intros Ha. unfold get_url, try_except, bind, get_self. cbn.
  rewrite Ha. cbn. rewrite (account_or_own_error_kind _ _ _ _ Ha). reflexivity.
Qed.

(** X17: when the directory answers with a JSON object that has no entry
    for the service, [get_url] raises a [KeyError] for the service name;
    when the body is JSON but not an object, a [TypeError].  Neither is an
    [AuthenticationException]. *)
Theorem get_url_unknown_service service_name arg w acct w1 r body :
  account_or_own transport str_HTTPError arg w = (inr acct, w1) ->
  transport (trace w1)
    (directory_call Region_get_endpoint_url (self w1) service_name acct)
    = Responded r ->
  is_error_status (status_code r) = false ->
  json_body r = Some body ->
  fst (get_url' service_name arg w) =
    match body with
    | PDict entries =>
        match dict_get entries service_name with
        | Some host => inr (format_https py_str host)
        | None => inl (KeyError service_name)
        end
    | _ => inl TypeError
    end.
Proof.
  intros Ha Hr Hst Hj. rewrite (get_url_outcome _ _ _ _ _ _ Ha Hr).
  cbn [fst]. rewrite Hst, Hj. unfold getitem.
  destruct body; try reflexivity.
  destruct (dict_get entries service_name); reflexivity.
Qed.

(** ** Construction with an empty token *)

(** X18: an empty string given as [aims_token] counts as no token: the
    session is the one built without a token, so it starts with the token
    [None] and with the key pair of the configuration. *)
Theorem init_empty_token ak sk aid prof ge res rfs :
  let cfg := Config_new ak sk aid prof ge res in
  let s := init ak sk (Some "") aid prof ge res rfs in
  s = init ak sk None aid prof ge res rfs
  /\ _token s = PNone
  /\ _access_key_id s = Bound (fst (Config.get_auth cfg))
  /\ _secret_key s = Bound (snd (Config.get_auth cfg)).
Proof.
  intros cfg s. subst s.
  rewrite (init_without_token ak sk (Some "") aid prof ge res rfs eq_refl).
  rewrite (init_without_token ak sk None aid prof ge res rfs eq_refl).
  repeat split.
Qed.

(** ** Lazy authentication, end to end *)

Lemma authenticate_well_formed w k sk r j t i n :
  _access_key_id (self w) = Bound k ->
  _secret_key (self w) = Bound sk ->
  transport (trace w ++ [EvAuthenticate]) (authenticate_call (self w) k sk)
    = Responded r ->
  is_error_status (status_code r) = false ->
  json_body r = Some j ->
  getpath j ["authentication"; "token"] = inr t ->
  (is_None (_account_id (self w)) = true ->
   getpath j ["authentication"; "account"; "id"] = inr i) ->
  getpath j ["authentication"; "account"; "name"] = inr n ->
  exists w',
    authenticate w = (inr tt, w')
    /\ _token (self w') = t
    /\ _account_id (self w')
       = (if is_None (_account_id (self w)) then i else _account_id (self w))
    /\ _account_name (self w') = Bound n
    /\ heap w' = heap w
    /\ trace w'
       = trace w ++ [EvAuthenticate; EvHttp (authenticate_call (self w) k sk)].
Proof.
  intros Hk Hsk Hr Hst Hj Ht Hi Hname. run. rewrite Hk, Hsk. cbn. rewrite Hr. cbn.
  rewrite Hst. cbn. rewrite Hj. cbn. rewrite Ht. cbn.
  destruct (is_None (_account_id (self w))) eqn:Hn; cbn.
  - rewrite (Hi eq_refl). cbn. rewrite Hname. cbn. rewrite <- app_assoc.
    eexists. repeat split.
  - rewrite Hname. cbn. rewrite <- app_assoc. eexists. repeat split.
Qed.

(** X19: the first signed request of a session that has a key pair and no
    token: the callback makes the one authentication call and, given a
    well-formed answer, returns the request signed with the token of that
    answer, which the session now holds. *)
Theorem call_authenticates_and_signs w req k sk r j t i n :
  _token (self w) = PNone ->
  _access_key_id (self w) = Bound k ->
  _secret_key (self w) = Bound sk ->
  transport (trace w ++ [EvAuthenticate]) (authenticate_call (self w) k sk)
    = Responded r ->
  is_error_status (status_code r) = false ->
  json_body r = Some j ->
  getpath j ["authentication"; "token"] = inr t ->
  (is_None (_account_id (self w)) = true ->
   getpath j ["authentication"; "account"; "id"] = inr i) ->
  getpath j ["authentication"; "account"; "name"] = inr n ->
  exists req' w',
    call req w = (inr req', w')
    /\ signed_with req t req'
    /\ _token (self w') = t
    /\ trace w'
       = trace w ++ [EvAuthenticate; EvHttp (authenticate_call (self w) k sk)].
Proof.
  intros Htok Hk Hsk Hr Hst Hj Ht Hi Hname.
  destruct (authenticate_well_formed w k sk r j t i n Hk Hsk Hr Hst Hj Ht Hi Hname)
    as (w' & Ha & Ht' & _ & _ & _ & Htr).
  unfold __call__, bind, get_self, ret. rewrite Htok. cbn. rewrite Ha. cbn.
  eexists _, _. split; [reflexivity |].
  rewrite Ht'. split; [apply signed_with_insert |]. split; [reflexivity | exact Htr].
Qed.

(** X20: the first read of [account_id] on a session that knows none
    authenticates and returns the account id of the answer; when that id
    is not JSON [null], a second read returns it again without any further
    call. *)
Theorem account_id_lazy_then_cached w k sk r j t i n :
  _account_id (self w) = PNone ->
  _access_key_id (self w) = Bound k ->
  _secret_key (self w) = Bound sk ->
  transport (trace w ++ [EvAuthenticate]) (authenticate_call (self w) k sk)
    = Responded r ->
  is_error_status (status_code r) = false ->
  json_body r = Some j ->
  getpath j ["authentication"; "token"] = inr t ->
  getpath j ["authentication"; "account"; "id"] = inr i ->
  getpath j ["authentication"; "account"; "name"] = inr n ->
  i <> PNone ->
  exists w',
    account_id' w = (inr i, w')
    /\ trace w'
       = trace w ++ [EvAuthenticate; EvHttp (authenticate_call (self w) k sk)]
    /\ account_id' w' = (inr i, w').
Proof.
  intros Hid Hk Hsk Hr Hst Hj Ht Hi Hname Hnn.
  destruct (authenticate_well_formed w k sk r j t i n Hk Hsk Hr Hst Hj Ht
              (fun _ => Hi) Hname)
    as (w' & Ha & _ & Hid' & _ & _ & Htr).
  rewrite Hid in Hid'. cbn in Hid'.
  exists w'. rewrite (account_id_unknown _ Hid), Ha, Hid'.
  split; [reflexivity |]. split; [exact Htr |].
  rewrite account_id_known by (rewrite Hid'; exact Hnn).
  rewrite Hid'. reflexivity.
Qed.

End Properties.

(** * Concrete runs *)

Example truthy_empty_token : truthy (Some "") = false.
Proof. reflexivity. Qed.

(** [request] on a session that never authenticated sends [None] as token. *)
Example request_sends_None_token :
  let w := new_world (Sample.key_session None true) ∅ in
  hc_headers (request_call w "GET" "https://api.cloudinsight.example" None None None [])
    !! "x-aims-auth-token" = Some PNone.
Proof. vm_compute. reflexivity. Qed.

Lemma account_id_read_with_token_witness :
  truthy (Some "tok-1") = true
  /\ (let w := new_world (Sample.token_session (Some "134235158")) ∅ in
      account_id Sample.offline Sample.str_HTTPError w
        = (inr (PStr "134235158"), w))
  /\ (let w := new_world (Sample.token_session None) ∅ in
      exists e,
        account_id Sample.offline Sample.str_HTTPError w
          = (inl e, mkWorld (self w) ∅ [EvAuthenticate])).
Proof.
  split; [reflexivity |]. split.
  - exact (proj2 (account_id_read_with_token
                    Sample.Config_new Sample.Region_get_global_endpoint
                    Sample.offline Sample.str_HTTPError
                    None None (Some "tok-1") (Some "134235158") None None
                    "us" true ∅ eq_refl)).
  - exact (proj2 (account_id_read_with_token
                    Sample.Config_new Sample.Region_get_global_endpoint
                    Sample.offline Sample.str_HTTPError
                    None None (Some "tok-1") None None None
                    "us" true ∅ eq_refl)).
Defined.

Lemma authenticate_token_missing_keeps_state_witness :
  let w := new_world (Sample.key_session None true) ∅ in
  let net := Sample.always Sample.identity_without_token in
  _access_key_id (self w) = Bound (PStr "key")
  /\ _secret_key (self w) = Bound (PStr "secret")
  /\ net (trace w ++ [EvAuthenticate])
       (authenticate_call (self w) (PStr "key") (PStr "secret"))
     = Responded Sample.identity_without_token
  /\ exists message w',
       _authenticate net Sample.str_HTTPError w
         = (inl (AuthenticationException message), w')
       /\ (is_error_status (status_code Sample.identity_without_token) = false ->
           message = "token not found in response")
       /\ _token (self w') = _token (self w)
       /\ _account_id (self w') = _account_id (self w)
       /\ _account_name (self w') = _account_name (self w).
Proof.
  intros w net. split; [reflexivity |]. split; [reflexivity |].
  split; [reflexivity |].
  apply (authenticate_token_missing_keeps_state net Sample.str_HTTPError w
           (PStr "key") (PStr "secret") Sample.identity_without_token
           (PDict [("authentication",
                    PDict [("account", PDict [("id", PStr "134235158");
                                              ("name", PStr "Acme")])])])).
  - reflexivity.
  - reflexivity.
  - reflexivity.
  - reflexivity.
  - intros tok. vm_compute. discriminate.
Defined.

(** C2: an answer of the identity service that lacks
    [authentication.token] should make [_authenticate] raise an
    [AuthenticationException] and keep the session as it was.  For a
    non-error answer whose body is not JSON at all the session is kept
    (token, account id and account name are what they were), but the
    exception is the decoding error of [response.json()], which is read
    before the [try] of the token lookup begins, although the handler of
    that [try] lists this very kind of error. *)
Theorem authenticate_body_not_json_escapes_handler :
  let w := new_world (Sample.key_session None true) ∅ in
  let '(res, w') :=
    _authenticate (Sample.always Sample.html_page) Sample.str_HTTPError w in
  is_error_status (status_code Sample.html_page) = false
  /\ json_body Sample.html_page = None
  /\ res = inl JSONDecodeError
  /\ is_AuthenticationException JSONDecodeError = false
  /\ is_lookup_error JSONDecodeError = true
  /\ _token (self w') = _token (self w)
  /\ _account_id (self w') = _account_id (self w)
  /\ _account_name (self w') = _account_name (self w).
Proof. vm_compute. repeat split. Qed.

(** After that failed call nothing was kept: the token is still [None]. *)
Example authenticate_token_missing_run :
  let w := new_world (Sample.key_session None true) ∅ in
  let '(res, w') :=
    _authenticate (Sample.always Sample.identity_without_token)
      Sample.str_HTTPError w in
  res = inl (AuthenticationException "token not found in response")
  /\ _token (self w') = PNone
  /\ _account_id (self w') = PNone
  /\ _account_name (self w') = Undefined.
Proof. vm_compute. repeat split. Qed.

(** A body with the token but without the account: the call fails and the
    token stays stored. *)
Example authenticate_account_missing_run :
  let w := new_world (Sample.key_session None true) ∅ in
  let body := PDict [("authentication", PDict [("token", PStr "T-1")])] in
  let '(res, w') :=
    _authenticate (Sample.always (mkResponse 200 (Some body)))
      Sample.str_HTTPError w in
  res = inl (AuthenticationException "account id not found in response")
  /\ _token (self w') = PStr "T-1".
Proof. vm_compute. repeat split. Qed.

Lemma set_credentials_clears_token :
  ~ token_never_cleared Sample.Region_get_endpoint_url Sample.offline
      Sample.str_HTTPError Sample.py_str.
Proof.
  intros H.
  apply (H [OpSetCredentials (PStr "key") (PStr "secret") PNone]
           (new_world (Sample.token_session None) ∅)).
  - discriminate.
  - reflexivity.
Qed.

Lemma token_changes_only_in_authenticate_witness :
  let net := Sample.always Sample.identity_ok in
  let ops := [OpCall Sample.get_request; OpAccountId;
              OpRequest "GET" "https://api.cloudinsight.example/iris/v3"
                None None None [];
              OpGetUrl "iris" None; OpToken] in
  let w := new_world (Sample.key_session None true) ∅ in
  no_setter ops = true
  /\ no_null_token net
  /\ let w' := run_ops Sample.Region_get_endpoint_url net
                 Sample.str_HTTPError Sample.py_str ops w in
     (_token (self w) <> PNone -> _token (self w') <> PNone)
     /\ token_step net w w'
     /\ forall k sk t,
          _token (self (run_op Sample.Region_get_endpoint_url net
                          Sample.str_HTTPError Sample.py_str
                          (OpSetCredentials k sk t) w')) = t.
Proof.
  intros net ops w.
  assert (Hnull : no_null_token net).
  { intros h c r j Hr Hj. injection Hr as <-. injection Hj as <-.
    vm_compute. discriminate. }
  split; [reflexivity |]. split; [exact Hnull |].
  exact (token_changes_only_in_authenticate Sample.Region_get_endpoint_url net
           Sample.str_HTTPError Sample.py_str ops w eq_refl Hnull).
Defined.

(** The same run, evaluated: the callback authenticated once and the token
    of the answer is the one held at the end. *)
Example token_after_run :
  let net := Sample.always Sample.identity_ok in
  let w' := run_ops Sample.Region_get_endpoint_url net
              Sample.str_HTTPError Sample.py_str
              [OpCall Sample.get_request; OpAccountId; OpToken]
              (new_world (Sample.key_session None true) ∅) in
  _token (self w') = PStr "T-1"
  /\ length (filter (fun e => is_EvAuthenticate e = true) (trace w')) = 1.
Proof. vm_compute. split; reflexivity. Qed.



Lemma configured_account_id_is_set_at_start :
  ~ starts_unset (Sample.key_session (Some "134235158") true).
Proof. intros (_ & Hid & _). discriminate Hid. Qed.

(** With nothing but the key pair configured, token and account id do start
    as [None], and the account name cannot be read yet. *)
Example key_session_start :
  let s := Sample.key_session None true in
  _token s = PNone /\ _account_id s = PNone
  /\ fst (account_name (new_world s ∅)) = inl (AttributeError "_account_name").
Proof. vm_compute. repeat split. Qed.

Lemma fresh_session_populated_by_authenticate_witness :
  let net := Sample.always Sample.identity_ok in
  let s := Sample.key_session None true in
  truthy None = false
  /\ is_error_status (status_code Sample.identity_ok) = false
  /\ _token s = PNone
  /\ _account_id s = PNone
  /\ exists w',
       _authenticate net Sample.str_HTTPError (new_world s ∅) = (inr tt, w')
       /\ _token (self w') = PStr "T-1"
       /\ _account_name (self w') = Bound (PStr "Acme")
       /\ _account_id (self w') = PStr "134235158".
Proof.
  intros net s. split; [reflexivity |]. split; [reflexivity |].
  exact (fresh_session_populated_by_authenticate
           Sample.Config_new Sample.Region_get_global_endpoint net
           Sample.str_HTTPError
           (Some "key") (Some "secret") None None None None "us" true ∅
           Sample.identity_ok (Sample.auth_body (PStr "T-1"))
           (PStr "T-1") (PStr "134235158") (PStr "Acme")
           eq_refl eq_refl eq_refl eq_refl eq_refl (fun _ => eq_refl) eq_refl).
Defined.


(** The run behind it: the 300 answer is read as a directory entry. *)
Example get_url_300_run :
  fst (get_url Sample.Region_get_endpoint_url
         (Sample.always Sample.directory_300) Sample.str_HTTPError Sample.py_str
         "iris" None (new_world (Sample.token_session (Some "134235158")) ∅))
  = inr "https://api.cloudinsight.example".
Proof. vm_compute. reflexivity. Qed.


Lemma token_session_authenticate_attribute_error_witness :
  let net := Sample.always Sample.identity_ok in
  let ops := [OpRequest "GET" "https://api.cloudinsight.example/iris/v3"
                None None None [];
              OpCall Sample.get_request; OpToken] in
  let s := Sample.token_session None in
  let w := run_ops Sample.Region_get_endpoint_url net Sample.str_HTTPError
             Sample.py_str ops (new_world s ∅) in
  truthy (Some "tok-1") = true
  /\ no_setter ops = true
  /\ _access_key_id s = Undefined
  /\ _secret_key s = Undefined
  /\ self w = s
  /\ _authenticate net Sample.str_HTTPError w
     = (inl (AttributeError "_access_key_id"),
        mkWorld s (heap w) (trace w ++ [EvAuthenticate]))
  /\ is_AuthenticationException (AttributeError "_access_key_id") = false
  /\ account_id net Sample.str_HTTPError w
     = (inl (AttributeError "_access_key_id"),
        mkWorld s (heap w) (trace w ++ [EvAuthenticate])).
Proof.
  intros net ops s w.
  split; [reflexivity |]. split; [reflexivity |].
  exact (token_session_authenticate_attribute_error
           Sample.Config_new Sample.Region_get_global_endpoint
           Sample.Region_get_endpoint_url net Sample.str_HTTPError Sample.py_str
           None None (Some "tok-1") None None None "us" true ∅ ops
           eq_refl eq_refl).
Defined.

(** The callback on a prepared request, with the token known. *)
Example call_with_token_run :
  let w := new_world (Sample.token_session (Some "134235158")) ∅ in
  let '(res, w') := __call__ Sample.offline Sample.str_HTTPError Sample.get_request w in
  w' = w
  /\ exists r', res = inr r'
       /\ pr_headers r' !! "x-aims-auth-token" = Some (PStr "tok-1")
       /\ pr_url r' = pr_url Sample.get_request.
Proof. vm_compute. split; [reflexivity |]. eexists. repeat split. Qed.

(** Two calls of [request] without [headers]: the default dictionary, empty
    at first, holds the token afterwards. *)
Example request_default_headers_run :
  let w := new_world (Sample.token_session (Some "134235158")) ∅ in
  let net := Sample.always Sample.directory_ok in
  let w2 := exec (request net "GET" "https://b.example" None None None [])
              (exec (request net "GET" "https://a.example" None None None []) w) in
  heap w !! request_default_headers = None
  /\ deref (heap w2) request_default_headers !! "x-aims-auth-token"
     = Some (PStr "tok-1").
Proof. vm_compute. split; reflexivity. Qed.

(** * Concrete runs of the further properties *)

Lemma authenticate_http_error_witness :
  let w := new_world (Sample.key_session None true) ∅ in
  let net := Sample.always Sample.unauthorized in
  let sent := authenticate_call (self w) Sample.key Sample.secret in
  _access_key_id (self w) = Bound Sample.key
  /\ _secret_key (self w) = Bound Sample.secret
  /\ net (trace w ++ [EvAuthenticate]) sent = Responded Sample.unauthorized
  /\ is_error_status (status_code Sample.unauthorized) = true
  /\ _authenticate net Sample.str_HTTPError w
     = (inl (AuthenticationException "invalid http response HTTP error"),
        mkWorld (set_session_auth (Sample.key, Sample.secret) (self w)) (heap w)
          (trace w ++ [EvAuthenticate; EvHttp sent])).
Proof.
  intros w net sent. repeat (split; [reflexivity |]).
  exact (authenticate_http_error net Sample.str_HTTPError w Sample.key
           Sample.secret Sample.unauthorized eq_refl eq_refl eq_refl eq_refl).
Defined.

Lemma authenticate_account_id_missing_keeps_token_witness :
  let w := new_world (Sample.key_session None true) ∅ in
  let net := Sample.always Sample.identity_token_only in
  let sent := authenticate_call (self w) Sample.key Sample.secret in
  _access_key_id (self w) = Bound Sample.key
  /\ _secret_key (self w) = Bound Sample.secret
  /\ net (trace w ++ [EvAuthenticate]) sent = Responded Sample.identity_token_only
  /\ is_error_status (status_code Sample.identity_token_only) = false
  /\ json_body Sample.identity_token_only = Some Sample.token_only_body
  /\ getpath Sample.token_only_body ["authentication"; "token"] = inr (PStr "T-1")
  /\ _account_id (self w) = PNone
  /\ getpath Sample.token_only_body ["authentication"; "account"; "id"]
     = inl (KeyError "account")
  /\ _authenticate net Sample.str_HTTPError w
     = (inl (AuthenticationException "account id not found in response"),
        mkWorld (set_token (PStr "T-1")
                   (set_session_auth (Sample.key, Sample.secret) (self w)))
          (heap w) (trace w ++ [EvAuthenticate; EvHttp sent])).
Proof.
  intros w net sent. repeat (split; [reflexivity |]).
  exact (authenticate_account_id_missing_keeps_token net Sample.str_HTTPError w
           Sample.key Sample.secret Sample.identity_token_only
           Sample.token_only_body (PStr "T-1") (KeyError "account")
           eq_refl eq_refl eq_refl eq_refl eq_refl eq_refl eq_refl eq_refl).
Defined.

Lemma authenticate_account_name_missing_witness :
  let w := new_world (Sample.key_session None true) ∅ in
  let net := Sample.always Sample.identity_without_name in
  _access_key_id (self w) = Bound Sample.key
  /\ _secret_key (self w) = Bound Sample.secret
  /\ net (trace w ++ [EvAuthenticate])
       (authenticate_call (self w) Sample.key Sample.secret)
     = Responded Sample.identity_without_name
  /\ is_error_status (status_code Sample.identity_without_name) = false
  /\ getpath Sample.nameless_body ["authentication"; "token"] = inr (PStr "T-1")
  /\ getpath Sample.nameless_body ["authentication"; "account"; "id"]
     = inr (PStr "134235158")
  /\ getpath Sample.nameless_body ["authentication"; "account"; "name"]
     = inl (KeyError "name")
  /\ exists w',
       _authenticate net Sample.str_HTTPError w
         = (inl (AuthenticationException "account name not found in response"), w')
       /\ _token (self w') = PStr "T-1"
       /\ _account_id (self w') = PStr "134235158"
       /\ _account_name (self w') = Undefined.
Proof.
  intros w net. repeat (split; [reflexivity |]).
  exact (authenticate_account_name_missing net Sample.str_HTTPError w
           Sample.key Sample.secret Sample.identity_without_name
           Sample.nameless_body (PStr "T-1") (PStr "134235158") (KeyError "name")
           eq_refl eq_refl eq_refl eq_refl eq_refl eq_refl eq_refl eq_refl).
Defined.

Lemma authenticate_body_not_json_witness :
  let w := new_world (Sample.key_session None true) ∅ in
  let net := Sample.always Sample.html_page in
  let sent := authenticate_call (self w) Sample.key Sample.secret in
  _access_key_id (self w) = Bound Sample.key
  /\ _secret_key (self w) = Bound Sample.secret
  /\ net (trace w ++ [EvAuthenticate]) sent = Responded Sample.html_page
  /\ is_error_status (status_code Sample.html_page) = false
  /\ json_body Sample.html_page = None
  /\ _authenticate net Sample.str_HTTPError w
     = (inl JSONDecodeError,
        mkWorld (set_session_auth (Sample.key, Sample.secret) (self w)) (heap w)
          (trace w ++ [EvAuthenticate; EvHttp sent])).
Proof.
  intros w net sent. repeat (split; [reflexivity |]).
  exact (authenticate_body_not_json net Sample.str_HTTPError w Sample.key
           Sample.secret Sample.html_page eq_refl eq_refl eq_refl eq_refl eq_refl).
Defined.

Lemma authenticate_single_call_witness :
  let w := new_world (Sample.key_session None true) ∅ in
  let sent := authenticate_call (self w) Sample.key Sample.secret in
  _access_key_id (self w) = Bound Sample.key
  /\ _secret_key (self w) = Bound Sample.secret
  /\ trace (exec (_authenticate Sample.offline Sample.str_HTTPError) w)
     = trace w ++ [EvAuthenticate; EvHttp sent]
  /\ heap (exec (_authenticate Sample.offline Sample.str_HTTPError) w) = heap w.
Proof.
  intros w sent. do 2 (split; [reflexivity |]).
  exact (authenticate_single_call Sample.offline Sample.str_HTTPError w
           Sample.key Sample.secret eq_refl eq_refl).
Defined.

Lemma authenticate_success_makes_account_name_readable_witness :
  let net := Sample.always Sample.identity_ok in
  let w := new_world (Sample.key_session None true) ∅ in
  let w' := snd (_authenticate net Sample.str_HTTPError w) in
  _authenticate net Sample.str_HTTPError w = (inr tt, w')
  /\ token_from_response net (_token (self w'))
  /\ exists n, account_name w' = (inr n, w').
Proof.
  intros net w w'. split; [reflexivity |].
  exact (authenticate_success_makes_account_name_readable net
           Sample.str_HTTPError w w' eq_refl).
Defined.

Lemma call_twice_same_token_witness :
  let net := Sample.always Sample.identity_ok in
  let w := new_world (Sample.key_session None true) ∅ in
  let r1 := Sample.get_request in
  let r2 := mkPreparedRequest "POST" "https://api.cloudinsight.example/iris/v3/x" ∅ None in
  let r1' := mkPreparedRequest (pr_method r1) (pr_url r1)
               (<["x-aims-auth-token" := PStr "T-1"]> (pr_headers r1)) (pr_body r1) in
  let w1 := snd (__call__ net Sample.str_HTTPError r1 w) in
  no_null_token net
  /\ __call__ net Sample.str_HTTPError r1 w = (inr r1', w1)
  /\ _token (self w1) <> PNone
  /\ signed_with r1 (_token (self w1)) r1'
  /\ exists r2',
       __call__ net Sample.str_HTTPError r2 w1 = (inr r2', w1)
       /\ signed_with r2 (_token (self w1)) r2'.
Proof.
  intros net w r1 r2 r1' w1.
  assert (Hnull : no_null_token net).
  { intros h c r j Hr Hj. injection Hr as <-. injection Hj as <-.
    vm_compute. discriminate. }
  split; [exact Hnull |]. split; [reflexivity |].
  exact (call_twice_same_token net Sample.str_HTTPError w r1 r1' w1 r2
           Hnull eq_refl).
Defined.

Lemma known_account_id_never_changes_witness :
  let net := Sample.always Sample.identity_ok in
  let w := new_world (Sample.key_session (Some "999") true) ∅ in
  let ops := [OpAuthenticate; OpCall Sample.get_request;
              OpSetCredentials (PStr "k2") (PStr "s2") PNone;
              OpAuthenticate; OpAccountId] in
  _account_id (self w) <> PNone
  /\ _account_id (self (run_ops Sample.Region_get_endpoint_url net
                          Sample.str_HTTPError Sample.py_str ops w))
     = _account_id (self w).
Proof.
  intros net w ops.
  assert (Hid : _account_id (self w) <> PNone) by (vm_compute; discriminate).
  split; [exact Hid |].
  exact (known_account_id_never_changes Sample.Region_get_endpoint_url net
           Sample.str_HTTPError Sample.py_str ops w Hid).
Defined.

Lemma request_keeps_other_arguments_witness :
  let net := Sample.always Sample.directory_ok in
  let w := new_world (Sample.token_session (Some "134235158"))
             {[ 7%N := {[ "accept" := PStr "application/json";
                          "x-aims-auth-token" := PStr "stale" ]} ]} in
  default request_default_params None <> default request_default_headers (Some 7%N)
  /\ default request_default_cookies None <> default request_default_headers (Some 7%N)
  /\ exists sent,
       trace (exec (request net "GET" "https://a.example" None (Some 7%N) None []) w)
         = trace w ++ [EvHttp sent]
       /\ hc_params sent = deref (heap w) (default request_default_params None)
       /\ hc_cookies sent = deref (heap w) (default request_default_cookies None)
       /\ hc_headers sent !! "x-aims-auth-token" = Some (_token (self w))
       /\ forall k, k <> "x-aims-auth-token" ->
            hc_headers sent !! k
              = deref (heap w) (default request_default_headers (Some 7%N)) !! k.
Proof.
  intros net w.
  assert (H1 : default request_default_params None
               <> default request_default_headers (Some 7%N))
    by (vm_compute; discriminate).
  assert (H2 : default request_default_cookies None
               <> default request_default_headers (Some 7%N))
    by (vm_compute; discriminate).
  split; [exact H1 |]. split; [exact H2 |].
  exact (request_keeps_other_arguments net "GET" "https://a.example"
           None (Some 7%N) None [] w H1 H2).
Defined.

Lemma get_url_with_account_argument_witness :
  let net := Sample.always Sample.directory_ok in
  let w := new_world (Sample.key_session None true) ∅ in
  let w' := exec (get_url Sample.Region_get_endpoint_url net Sample.str_HTTPError
                    Sample.py_str "iris" (Some "134235158")) w in
  let sent := directory_call Sample.Region_get_endpoint_url (self w) "iris"
                (PStr "134235158") in
  truthy (Some "134235158") = true
  /\ _token (self w) = PNone
  /\ _account_id (self w) = PNone
  /\ self w' = self w
  /\ heap w' = heap w
  /\ trace w' = trace w ++ [EvHttp sent]
  /\ hc_method sent = "GET"
  /\ hc_headers sent = ∅.
Proof.
  intros net w w' sent. do 3 (split; [reflexivity |]).
  exact (get_url_with_account_argument Sample.Region_get_endpoint_url net
           Sample.str_HTTPError Sample.py_str "iris" "134235158" w eq_refl).
Defined.

Lemma get_url_account_failure_propagates_witness :
  let net := Sample.always Sample.directory_ok in
  let w := new_world (Sample.token_session None) ∅ in
  let w1 := mkWorld (self w) ∅ [EvAuthenticate] in
  account_or_own net Sample.str_HTTPError None w
    = (inl (AttributeError "_access_key_id"), w1)
  /\ get_url Sample.Region_get_endpoint_url net Sample.str_HTTPError Sample.py_str
       "iris" None w
     = (inl (AttributeError "_access_key_id"), w1).
Proof.
  intros net w w1. split; [reflexivity |].
  exact (get_url_account_failure_propagates Sample.Region_get_endpoint_url net
           Sample.str_HTTPError Sample.py_str "iris" None w
           (AttributeError "_access_key_id") w1 eq_refl).
Defined.

Lemma get_url_unknown_service_witness :
  let net := Sample.always Sample.directory_other in
  let w := new_world (Sample.token_session (Some "134235158")) ∅ in
  let acct := PStr "134235158" in
  let body := PDict [("aetuner", PStr "api.cloudinsight.example")] in
  account_or_own net Sample.str_HTTPError None w = (inr acct, w)
  /\ net (trace w) (directory_call Sample.Region_get_endpoint_url (self w) "iris" acct)
     = Responded Sample.directory_other
  /\ is_error_status (status_code Sample.directory_other) = false
  /\ json_body Sample.directory_other = Some body
  /\ fst (get_url Sample.Region_get_endpoint_url net Sample.str_HTTPError
            Sample.py_str "iris" None w)
     = inl (KeyError "iris").
Proof.
  intros net w acct body. do 4 (split; [reflexivity |]).
  exact (get_url_unknown_service Sample.Region_get_endpoint_url net
           Sample.str_HTTPError Sample.py_str "iris" None w acct w
           Sample.directory_other body eq_refl eq_refl eq_refl eq_refl).
Defined.

Lemma call_authenticates_and_signs_witness :
  let net := Sample.always Sample.identity_ok in
  let w := new_world (Sample.key_session None true) ∅ in
  let body := Sample.auth_body (PStr "T-1") in
  _token (self w) = PNone
  /\ _access_key_id (self w) = Bound Sample.key
  /\ _secret_key (self w) = Bound Sample.secret
  /\ net (trace w ++ [EvAuthenticate])
       (authenticate_call (self w) Sample.key Sample.secret)
     = Responded Sample.identity_ok
  /\ is_error_status (status_code Sample.identity_ok) = false
  /\ json_body Sample.identity_ok = Some body
  /\ getpath body ["authentication"; "token"] = inr (PStr "T-1")
  /\ getpath body ["authentication"; "account"; "id"] = inr (PStr "134235158")
  /\ getpath body ["authentication"; "account"; "name"] = inr (PStr "Acme")
  /\ exists req' w',
       __call__ net Sample.str_HTTPError Sample.get_request w = (inr req', w')
       /\ signed_with Sample.get_request (PStr "T-1") req'
       /\ _token (self w') = PStr "T-1"
       /\ trace w'
          = trace w ++ [EvAuthenticate;
                        EvHttp (authenticate_call (self w) Sample.key Sample.secret)].
Proof.
  intros net w body. do 9 (split; [reflexivity |]).
  exact (call_authenticates_and_signs net Sample.str_HTTPError w
           Sample.get_request Sample.key Sample.secret Sample.identity_ok body
           (PStr "T-1") (PStr "134235158") (PStr "Acme")
           eq_refl eq_refl eq_refl eq_refl eq_refl eq_refl eq_refl
           (fun _ => eq_refl) eq_refl).
Defined.

Lemma account_id_lazy_then_cached_witness :
  let net := Sample.always Sample.identity_ok in
  let w := new_world (Sample.key_session None true) ∅ in
  let body := Sample.auth_body (PStr "T-1") in
  _account_id (self w) = PNone
  /\ _access_key_id (self w) = Bound Sample.key
  /\ _secret_key (self w) = Bound Sample.secret
  /\ net (trace w ++ [EvAuthenticate])
       (authenticate_call (self w) Sample.key Sample.secret)
     = Responded Sample.identity_ok
  /\ is_error_status (status_code Sample.identity_ok) = false
  /\ json_body Sample.identity_ok = Some body
  /\ getpath body ["authentication"; "token"] = inr (PStr "T-1")
  /\ getpath body ["authentication"; "account"; "id"] = inr (PStr "134235158")
  /\ getpath body ["authentication"; "account"; "name"] = inr (PStr "Acme")
  /\ PStr "134235158" <> PNone
  /\ exists w',
       account_id net Sample.str_HTTPError w = (inr (PStr "134235158"), w')
       /\ trace w'
          = trace w ++ [EvAuthenticate;
                        EvHttp (authenticate_call (self w) Sample.key Sample.secret)]
       /\ account_id net Sample.str_HTTPError w' = (inr (PStr "134235158"), w').
Proof.
  intros net w body. do 9 (split; [reflexivity |]).
  assert (Hnn : PStr "134235158" <> PNone) by discriminate.
  split; [exact Hnn |].
  exact (account_id_lazy_then_cached net Sample.str_HTTPError w
           Sample.key Sample.secret Sample.identity_ok body
           (PStr "T-1") (PStr "134235158") (PStr "Acme")
           eq_refl eq_refl eq_refl eq_refl eq_refl eq_refl eq_refl eq_refl
           eq_refl Hnn).
Defined.

(** A setter call on a token session, then [_authenticate]: it now reaches
    the network. *)
Example set_credentials_then_authenticate_run :
  let w := new_world (Sample.token_session None) ∅ in
  let w1 := exec (_set_credentials (PStr "k2") (PStr "s2") PNone) w in
  let '(res, w2) := _authenticate (Sample.always Sample.identity_ok)
                      Sample.str_HTTPError w1 in
  res = inr tt /\ _token (self w2) = PStr "T-1"
  /\ count_events is_EvHttp (trace w2) = 1.
Proof. vm_compute. repeat split. Qed.

(** The same dictionary as [params] and [headers]. *)
Example request_shared_dict_run :
  let w := new_world (Sample.token_session (Some "134235158")) {[ 7%N := ∅ ]} in
  hc_params (request_call w "GET" "https://a.example" (Some 7%N) (Some 7%N) None [])
    !! "x-aims-auth-token" = Some (PStr "tok-1").
Proof. vm_compute. reflexivity. Qed.
